(** * A shallow embedding of the WebSocket chat server [server_ws.py]

    The server keeps one shared dictionary [clients] (username -> websocket)
    and runs one [handler] coroutine per connection.  The embedding below
    follows the source function by function:

    - Python [str] values are Rocq [string]s, one character per code point
      (code points below 256), with [strip], [startswith], [split] and
      slicing written out;
    - decoded JSON values are the inductive [json];
    - the dictionary [clients] is an insertion-ordered association list,
      as a Python [dict] iterates in insertion order;
    - the coroutines are computations in a small state-and-exception monad
      over the [world]: the registry, the set of websockets whose [send]
      raises, and the log of the calls made on websockets.

    One coroutine step (the authentication phase, one iteration of the
    receive loop, the teardown) is run without interleaving, as the lock
    [clients_lock] and the single-threaded event loop serialise registry
    accesses; [async with clients_lock] is therefore the identity here. *)

From Stdlib Require Import String Ascii List Bool Arith NArith ZArith Lia.
Import ListNotations.
Local Open Scope string_scope.
Local Open Scope list_scope.

(* ===================================================================== *)
(** ** Python strings *)
(* ===================================================================== *)

Module Str.

(** [str.isspace] on one character, for code points below 256:
    TAB..CR, FS..US, SPACE, NEL and NBSP. *)
Definition isspace (c : ascii) : bool :=
  let n := N_of_ascii c in
  (((9 <=? n) && (n <=? 13)) || ((28 <=? n) && (n <=? 32))
   || (n =? 133) || (n =? 160))%N.

Fixpoint lstrip (s : string) : string :=
  match s with
  | EmptyString => EmptyString
  | String c s' => if isspace c then lstrip s' else s
  end.

Fixpoint rstrip (s : string) : string :=
  match s with
  | EmptyString => EmptyString
  | String c s' =>
      match rstrip s' with
      | EmptyString => if isspace c then EmptyString else String c EmptyString
      | r => String c r
      end
  end.

(** [s.strip()] *)
Definition strip (s : string) : string := rstrip (lstrip s).

(** [s.startswith(p)] *)
Fixpoint startswith (s p : string) {struct p} : bool :=
  match p with
  | EmptyString => true
  | String b p' =>
      match s with
      | EmptyString => false
      | String a s' => Ascii.eqb a b && startswith s' p'
      end
  end.

(** [s.split(sep, maxsplit)] for a separator of one character. *)
Fixpoint split (sep : ascii) (maxsplit : nat) (s : string) : list string :=
  match s with
  | EmptyString => [EmptyString]
  | String c s' =>
      match maxsplit with
      | O => [s]
      | S n =>
          if Ascii.eqb c sep then EmptyString :: split sep n s'
          else match split sep maxsplit s' with
               | h :: t => String c h :: t
               | [] => [String c EmptyString]
               end
      end
  end.

(** [s[:n]] *)
Fixpoint take (n : nat) (s : string) : string :=
  match n, s with
  | S n', String c s' => String c (take n' s')
  | _, _ => EmptyString
  end.

(** No character of [s] is [c]. *)
Fixpoint lacks (c : ascii) (s : string) : bool :=
  match s with
  | EmptyString => true
  | String a s' => negb (Ascii.eqb a c) && lacks c s'
  end.

End Str.

(* ===================================================================== *)
(** ** Insertion-ordered dictionaries *)
(* ===================================================================== *)

Section Dict.
Context {V : Type}.

Definition dict := list (string * V).

(** [d.get(k)] *)
Fixpoint dict_get (k : string) (d : dict) : option V :=
  match d with
  | [] => None
  | (k', v) :: d' => if String.eqb k' k then Some v else dict_get k d'
  end.

(** [k in d] *)
Definition dict_mem (k : string) (d : dict) : bool :=
  match dict_get k d with Some _ => true | None => false end.

(** [d[k] = v]: an existing key keeps its position, a new key goes last. *)
Fixpoint dict_set (k : string) (v : V) (d : dict) : dict :=
  match d with
  | [] => [(k, v)]
  | (k', v') :: d' =>
      if String.eqb k' k then (k, v) :: d' else (k', v') :: dict_set k v d'
  end.

(** [del d[k]] on a key that is present. *)
Fixpoint dict_del (k : string) (d : dict) : dict :=
  match d with
  | [] => []
  | (k', v') :: d' =>
      if String.eqb k' k then d' else (k', v') :: dict_del k d'
  end.

(** [list(d.keys())] *)
Definition dict_keys (d : dict) : list string := map fst d.

End Dict.
Arguments dict V : clear implicits.

(* ===================================================================== *)
(** ** Decoded JSON values *)
(* ===================================================================== *)

(** What [json.loads] returns.  Numbers are kept as integers. *)
#[warnings="-register-all"]
Inductive json : Type :=
| JNull
| JBool (b : bool)
| JNum (n : Z)
| JStr (s : string)
| JArr (items : list json)
| JObj (fields : list (string * json)).

(** A received frame, seen through [json.loads]: either the decoder raises
    or it returns a value. *)
Inductive frame : Type :=
| NotJson
| Json (v : json).

(** Python truthiness, as tested by [not x]. *)
Definition truthy (j : json) : bool :=
  match j with
  | JNull => false
  | JBool b => b
  | JNum n => negb (Z.eqb n 0)
  | JStr s => negb (String.eqb s "")
  | JArr items => match items with [] => false | _ => true end
  | JObj fields => match fields with [] => false | _ => true end
  end.

(** [j == s] for a string literal [s]. *)
Definition json_is_str (j : json) (s : string) : bool :=
  match j with
  | JStr x => String.eqb x s
  | _ => false
  end.

(* ===================================================================== *)
(** ** Messages, websockets and the world *)
(* ===================================================================== *)

(** A websocket object, by identity. *)
Definition websocket := nat.

(** The dictionaries handed to [send_json], by their ["type"] tag. *)
Inductive packet : Type :=
| AuthOk
| AuthFail (reason : string)
| Chat (from text timestamp : string)
| Private (from text timestamp : string)
| System (message : string)
| Users (users : list string).

(** Calls made on websockets: [ws.send] with whether it went through, and
    [ws.close]. *)
Inductive event : Type :=
| EvSend (ws : websocket) (p : packet) (delivered : bool)
| EvClose (ws : websocket).

Inductive exn : Type :=
| AttributeError
| TypeError
| KeyError
| ValueError
| ConnectionClosed.

Record world : Type := mkWorld {
  clients : dict websocket;      (* username -> websocket *)
  closed : list websocket;       (* connections on which [send] raises *)
  log : list event
}.

Definition CHAT_PASSWORD : string := "letmein".
Definition MAX_MSG : N := 10000.

Definition is_open (s : world) (ws : websocket) : bool :=
  negb (existsb (Nat.eqb ws) (closed s)).

Definition emit (e : event) (s : world) : world :=
  mkWorld (clients s) (closed s) (log s ++ [e]).

(* ===================================================================== *)
(** ** The coroutine monad *)
(* ===================================================================== *)

Inductive result (A : Type) : Type :=
| Ok (a : A)
| Raise (e : exn).
Arguments Ok {A} a.
Arguments Raise {A} e.

Definition M (A : Type) : Type := world -> result A * world.

Definition ret {A} (a : A) : M A := fun s => (Ok a, s).

Definition bind {A B} (m : M A) (k : A -> M B) : M B :=
  fun s => match m s with
           | (Ok a, s') => k a s'
           | (Raise e, s') => (Raise e, s')
           end.

Definition raise {A} (e : exn) : M A := fun s => (Raise e, s).

(** [try: m  except: h] with a bare [except]. *)
Definition try_except {A} (m : M A) (h : M A) : M A :=
  fun s => match m s with
           | (Ok a, s') => (Ok a, s')
           | (Raise _, s') => h s'
           end.

(** [try: m  except E: h] for the exceptions selected by [sel]. *)
Definition try_except_on {A} (sel : exn -> bool) (m : M A) (h : M A) : M A :=
  fun s => match m s with
           | (Ok a, s') => (Ok a, s')
           | (Raise e, s') => if sel e then h s' else (Raise e, s')
           end.

(** [try: m  finally: f] *)
Definition try_finally {A} (m : M A) (f : M unit) : M A :=
  fun s => match m s with
           | (r, s') =>
               match f s' with
               | (Ok _, s'') => (r, s'')
               | (Raise e, s'') => (Raise e, s'')
               end
           end.

Declare Scope coro_scope.
Delimit Scope coro_scope with coro.
Notation "x <- m ;; k" := (bind m (fun x => k))
  (at level 61, m at next level, right associativity) : coro_scope.
Notation "m ;; k" := (bind m (fun _ => k))
  (at level 61, right associativity) : coro_scope.
Local Open Scope coro_scope.

(** [for x in xs: body x] *)
Fixpoint for_each {X} (xs : list X) (body : X -> M unit) : M unit :=
  match xs with
  | [] => ret tt
  | x :: xs' => body x ;; for_each xs' body
  end.

Definition get_clients : M (dict websocket) := fun s => (Ok (clients s), s).

Definition put_clients (d : dict websocket) : M unit :=
  fun s => (Ok tt, mkWorld d (closed s) (log s)).

(** [await ws.send(...)]: raises on a closed connection. *)
Definition ws_send (ws : websocket) (p : packet) : M unit :=
  fun s => if is_open s ws
           then (Ok tt, emit (EvSend ws p true) s)
           else (Raise ConnectionClosed, emit (EvSend ws p false) s).

(** [await ws.close()] *)
Definition ws_close (ws : websocket) : M unit :=
  fun s => (Ok tt, mkWorld (clients s) (ws :: closed s) (log s ++ [EvClose ws])).

(** [json.loads]: a decoding failure is a [ValueError]. *)
Definition json_loads (raw : frame) : M json :=
  match raw with
  | NotJson => raise ValueError
  | Json v => ret v
  end.

(** [obj.get(key)]: only a decoded object has the method; a missing key
    gives [None], which is [JNull] here. *)
Definition py_get (obj : json) (key : string) : M json :=
  match obj with
  | JObj fields =>
      ret (match dict_get key fields with Some v => v | None => JNull end)
  | _ => raise AttributeError
  end.

(** [key in obj] on a decoded object. *)
Definition py_contains (key : string) (obj : json) : M bool :=
  match obj with
  | JObj fields => ret (dict_mem key fields)
  | _ => raise TypeError
  end.

(** [obj[key]] *)
Definition py_item (obj : json) (key : string) : M json :=
  match obj with
  | JObj fields =>
      match dict_get key fields with
      | Some v => ret v
      | None => raise KeyError
      end
  | _ => raise TypeError
  end.

(** [x.strip()]: only a string has the method. *)
Definition py_strip (x : json) : M string :=
  match x with
  | JStr s => ret (Str.strip s)
  | _ => raise AttributeError
  end.

(** [x[:n]]: strings and lists can be sliced. *)
Definition py_slice_to (n : nat) (x : json) : M json :=
  match x with
  | JStr s => ret (JStr (Str.take n s))
  | JArr items => ret (JArr (firstn n items))
  | _ => raise TypeError
  end.

(** [now_ts()] is read from the environment: every step that may call it
    takes the string it would return as an argument. *)

(* ===================================================================== *)
(** ** The server *)
(* ===================================================================== *)

(** [send_json]: the bare [except: pass] swallows every failure. *)
Definition send_json (ws : websocket) (obj : packet) : M unit :=
  try_except (ws_send ws obj) (ret tt).

(** [del clients[user]] *)
Definition del_client (user : string) : M unit :=
  d <- get_clients ;;
  if dict_mem user d then put_clients (dict_del user d) else raise KeyError.

(** [user == exclude_username] *)
Definition is_excluded (user : string) (exclude_username : option string) : bool :=
  match exclude_username with
  | Some u => String.eqb user u
  | None => false
  end.

Definition broadcast_packet (p : packet) (exclude_username : option string) : M unit :=
  items <- get_clients ;;
  for_each items (fun '(user, ws) =>
    if is_excluded user exclude_username then ret tt
    else try_except (send_json ws p)
                    (* drop client on error *)
                    (del_client user)).

Definition handle_command (username text : string) (ws : websocket) (ts : string)
  : M bool :=
  let l := Str.strip text in
  if String.eqb l "/users" then
    d <- get_clients ;;
    send_json ws (Users (dict_keys d)) ;;
    ret true
  else if Str.startswith l "/msg " then
    let parts := Str.split " " 2 l in
    if Nat.ltb (List.length parts) 3 then
      send_json ws (System "Usage: /msg <user> <message>") ;;
      ret true
    else
      let to_user := nth 1 parts "" in
      let message := nth 2 parts "" in
      d <- get_clients ;;
      match dict_get to_user d with
      | None =>
          send_json ws (System ("User '" ++ to_user ++ "' not found.")) ;;
          ret true
      | Some target =>
          send_json target (Private username message ts) ;;
          send_json ws (System "Private message sent.") ;;
          ret true
      end
  else if String.eqb l "/quit" then
    send_json ws (System "Goodbye.") ;;
    ws_close ws ;;
    ret true
  else
    ret false.

(** What the first [asyncio.wait_for(ws.recv(), timeout=15)] does: the
    timeout expires, the connection is lost first, or a frame is there. *)
Inductive first_recv : Type :=
| TimedOut
| Lost
| Received (auth_raw : frame).

(** [send_json(ws, auth_fail); ws.close(); return] *)
Definition reject (ws : websocket) (reason : string) : M (option string) :=
  send_json ws (AuthFail reason) ;;
  ws_close ws ;;
  ret None.

(** [handler], from the accept to the end of the join announcements.
    [None]: the handler returned; [Some username]: it enters the loop. *)
Definition authenticate (ws : websocket) (first : first_recv)
  : M (option string) :=
  match first with
  | TimedOut => reject ws "No auth received"
  | Lost => raise ConnectionClosed
  | Received auth_raw =>
      decoded <- try_except (a <- json_loads auth_raw ;; ret (Some a)) (ret None) ;;
      match decoded with
      | None => reject ws "Malformed auth"
      | Some auth =>
          missing <-
            (t <- py_get auth "type" ;;
             if negb (json_is_str t "auth") then ret true
             else u <- py_get auth "username" ;;
                  if negb (truthy u) then ret true
                  else p <- py_get auth "password" ;;
                       ret (negb (truthy p))) ;;
          if missing then reject ws "Auth required"
          else
            u <- py_item auth "username" ;;
            username <- py_strip u ;;
            password <- py_item auth "password" ;;
            if negb (json_is_str password CHAT_PASSWORD)
            then reject ws "Wrong password"
            else
              (* now register client *)
              d <- get_clients ;;
              if dict_mem username d
              then reject ws "Username already taken"
              else
                put_clients (dict_set username ws d) ;;
                send_json ws AuthOk ;;
                (* announce to others *)
                broadcast_packet
                  (System ("*** " ++ username ++ " joined the chat ***"))
                  (Some username) ;;
                (* send updated users list *)
                d' <- get_clients ;;
                broadcast_packet (Users (dict_keys d')) None ;;
                ret (Some username)
      end
  end.

(** One iteration of [async for incoming in ws]. *)
Definition on_incoming (username : string) (ws : websocket)
    (incoming : frame) (ts : string) : M unit :=
  decoded <- try_except (p <- json_loads incoming ;; ret (Some p)) (ret None) ;;
  match decoded with
  | None => send_json ws (System "Malformed packet (expecting JSON).")
  | Some pkt =>
      unknown <-
        (t <- py_get pkt "type" ;;
         if negb (json_is_str t "chat") then ret true
         else has <- py_contains "text" pkt ;; ret (negb has)) ;;
      if unknown then send_json ws (System "Unknown packet type.")
      else
        raw_text <- py_item pkt "text" ;;
        sliced <- py_slice_to (N.to_nat MAX_MSG) raw_text ;;
        match sliced with
        | JStr text =>
            (* check for commands *)
            handled <- handle_command username text ws ts ;;
            if handled then
              d <- get_clients ;;
              broadcast_packet (Users (dict_keys d)) None
            else
              (* normal broadcast *)
              broadcast_packet (Chat username text ts) None
        | _ =>
            (* [text.strip()] in [handle_command] on a sliced list *)
            raise AttributeError
        end
  end.

(** The loop [async for incoming in ws]: [frames] are the frames the
    iterator yields, each with the clock reading of its iteration;
    [broken] tells whether the iteration ends with [ConnectionClosed]. *)
Fixpoint receive_loop (username : string) (ws : websocket)
    (frames : list (frame * string)) (broken : bool) : M unit :=
  match frames with
  | [] => if broken then raise ConnectionClosed else ret tt
  | (incoming, ts) :: rest =>
      on_incoming username ws incoming ts ;;
      receive_loop username ws rest broken
  end.

(** [username in clients and clients[username] is ws] *)
Definition still_mine (username : string) (ws : websocket)
    (d : dict websocket) : bool :=
  dict_mem username d &&
  match dict_get username d with
  | Some w => Nat.eqb w ws
  | None => false
  end.

(** The [finally] block of [handler]. *)
Definition teardown (username : string) (ws : websocket) : M unit :=
  d <- get_clients ;;
  (if still_mine username ws d then put_clients (dict_del username d)
   else ret tt) ;;
  broadcast_packet (System ("*** " ++ username ++ " left the chat ***")) None ;;
  d' <- get_clients ;;
  broadcast_packet (Users (dict_keys d')) None.

Definition is_ConnectionClosed (e : exn) : bool :=
  match e with ConnectionClosed => true | _ => false end.

(** The whole coroutine for one connection, run on its own. *)
Definition handler (ws : websocket) (first : first_recv)
    (frames : list (frame * string)) (broken : bool) : M unit :=
  joined <- authenticate ws first ;;
  match joined with
  | None => ret tt
  | Some username =>
      try_finally
        (try_except_on is_ConnectionClosed
           (receive_loop username ws frames broken) (ret tt))
        (teardown username ws)
  end.

(* ===================================================================== *)
(** ** The server as interleaved handler steps *)
(* ===================================================================== *)

(** Handlers of different connections interleave between their steps. *)
Inductive server_step : Type :=
| Accept (ws : websocket) (first : first_recv)
| Incoming (username : string) (ws : websocket) (incoming : frame) (ts : string)
| Finish (username : string) (ws : websocket)
| PeerGone (ws : websocket).

Definition step (s : world) (e : server_step) : world :=
  match e with
  | Accept ws first => snd (authenticate ws first s)
  | Incoming username ws incoming ts => snd (on_incoming username ws incoming ts s)
  | Finish username ws => snd (teardown username ws s)
  | PeerGone ws => mkWorld (clients s) (ws :: closed s) (log s)
  end.

Definition run (es : list server_step) (s : world) : world :=
  fold_left step es s.

Definition initial : world := mkWorld [] [] [].

(** Building blocks of frames, as the clients send them. *)
Definition auth_frame (username password : string) : frame :=
  Json (JObj [("type", JStr "auth"); ("username", JStr username);
              ("password", JStr password)]).

Definition chat_frame (text : string) : frame :=
  Json (JObj [("type", JStr "chat"); ("text", JStr text)]).

(** The packets sent to one websocket, in order, with their outcome. *)
Fixpoint sent_to (ws : websocket) (l : list event) : list (packet * bool) :=
  match l with
  | [] => []
  | EvSend w p b :: l' =>
      if Nat.eqb w ws then (p, b) :: sent_to ws l' else sent_to ws l'
  | EvClose _ :: l' => sent_to ws l'
  end.

(** The send events of one fan-out over the registry snapshot [items]:
    one send per entry that is not excluded, in registry order. *)
Definition fanout (p : packet) (exclude_username : option string)
    (shut : list websocket) (items : dict websocket) : list event :=
  map (fun '(_, ws) => EvSend ws p (negb (existsb (Nat.eqb ws) shut)))
      (filter (fun '(user, _) => negb (is_excluded user exclude_username)) items).

(** A decoded object that carries the three fields of an auth message. *)
Definition presents (fields : list (string * json)) (u pw : string) : Prop :=
  dict_get "type" fields = Some (JStr "auth") /\
  dict_get "username" fields = Some (JStr u) /\ u <> "" /\
  dict_get "password" fields = Some (JStr pw) /\ pw <> "".

(** The world after [username] joined on [ws]. *)
Definition joined (username : string) (ws : websocket) (s : world) : world :=
  let d := dict_set username ws (clients s) in
  mkWorld d (closed s)
    (log s
     ++ [EvSend ws AuthOk (is_open s ws)]
     ++ fanout (System ("*** " ++ username ++ " joined the chat ***"))
          (Some username) (closed s) d
     ++ fanout (Users (dict_keys d)) None (closed s) d).

(** What the loop body does with a command or a chat line. *)
Definition dispatch (username : string) (ws : websocket) (text ts : string)
  : M unit :=
  handled <- handle_command username text ws ts ;;
  if handled then
    d <- get_clients ;;
    broadcast_packet (Users (dict_keys d)) None
  else
    broadcast_packet (Chat username text ts) None.

(** The registry after the [finally] block. *)
Definition without (username : string) (ws : websocket)
    (d : dict websocket) : dict websocket :=
  if still_mine username ws d then dict_del username d else d.

(** Packets that carry a user's text. *)
Definition is_chat_or_private (e : event) : bool :=
  match e with
  | EvSend _ (Chat _ _ _) _ | EvSend _ (Private _ _ _) _ => true
  | _ => false
  end.

(** The frames that an iteration of the loop survives: anything that is
    not JSON, and a decoded object unless it is a chat packet whose
    [text] is not a string. *)
Definition harmless (incoming : frame) : bool :=
  match incoming with
  | NotJson => true
  | Json (JObj fields) =>
      if json_is_str (match dict_get "type" fields with
                      | Some v => v
                      | None => JNull
                      end) "chat"
      then match dict_get "text" fields with
           | Some (JStr _) | None => true
           | Some _ => false
           end
      else true
  | Json _ => false
  end.

(** The five reasons an [auth_fail] packet can carry. *)
Definition auth_fail_reasons : list string :=
  ["No auth received"; "Malformed auth"; "Auth required"; "Wrong password";
   "Username already taken"].

(** A packet other than [Private] and [Chat]. *)
Definition is_reply (p : packet) : bool :=
  match p with
  | Chat _ _ _ | Private _ _ _ => false
  | _ => true
  end.

(** The text a packet carries from a user, if any. *)
Definition carried_text (e : event) : option string :=
  match e with
  | EvSend _ (Chat _ t _) _ | EvSend _ (Private _ t _) _ => Some t
  | _ => None
  end.

(** A string that does not start with a blank. *)
Definition headed (s : string) : Prop :=
  match s with
  | EmptyString => True
  | String c _ => Str.isspace c = false
  end.

(** What a command may do: it sends to the sender's websocket, it sends a
    [Private] packet from the sender to a registered websocket with a
    message no longer than the text, it closes the sender's websocket, and
    nothing else. *)
Definition command_call (username text ts : string) (ws : websocket)
    (d : dict websocket) (e : event) : Prop :=
  match e with
  | EvClose w => w = ws
  | EvSend w (Private f m t) _ =>
      f = username /\ t = ts /\ String.length m <= String.length text /\
      exists target, dict_get target d = Some w
  | EvSend w p _ => w = ws /\ is_reply p = true
  end.

(* ===================================================================== *)
(** ** [now_ts] *)
(* ===================================================================== *)

(** The fields of [datetime.now()] that the format reads. *)
Record datetime : Type := mkDatetime {
  year : nat; month : nat; day : nat;
  hour : nat; minute : nat; second : nat
}.

Definition digit (d : nat) : ascii := ascii_of_nat (48 + d).

(** [%m], [%d], [%I], [%M], [%S]: two digits, zero-padded. *)
Definition pad2 (n : nat) : string :=
  String (digit (n / 10)) (String (digit (n mod 10)) EmptyString).

(** [%Y] for a year of four digits. *)
Definition pad4 (n : nat) : string :=
  String (digit (n / 1000))
    (String (digit (n / 100 mod 10))
       (String (digit (n / 10 mod 10))
          (String (digit (n mod 10)) EmptyString))).

(** [%I]: the hour on the 12-hour clock, 12 for midnight and noon. *)
Definition hour12 (h : nat) : nat :=
  match h mod 12 with
  | O => 12
  | k => k
  end.

(** [%p] in the C locale. *)
Definition ampm (h : nat) : string := if Nat.ltb h 12 then "AM" else "PM".

(** [now_ts()], with the clock reading [datetime.now()] as its argument:
    [strftime("%Y-%m-%d %I:%M:%S %p")]. *)
Definition now_ts (now : datetime) : string :=
  pad4 (year now) ++ "-" ++ pad2 (month now) ++ "-" ++ pad2 (day now) ++ " "
  ++ pad2 (hour12 (hour now)) ++ ":" ++ pad2 (minute now) ++ ":"
  ++ pad2 (second now) ++ " " ++ ampm (hour now).

(** The clock readings with a year of four digits. *)
Definition valid_datetime (t : datetime) : Prop :=
  1000 <= year t < 10 * 1000 /\ 1 <= month t <= 12 /\ 1 <= day t <= 31 /\
  hour t < 24 /\ minute t < 60 /\ second t < 60.

(* ===================================================================== *)
(** ** The terminal client [client.py] *)
(* ===================================================================== *)

Module Client.

(** [str.lower()] on one character, for code points below 256. *)
Definition lower_char (c : ascii) : ascii :=
  let n := N_of_ascii c in
  if (((65 <=? n) && (n <=? 90))
      || ((192 <=? n) && (n <=? 222) && negb (n =? 215)))%N
  then ascii_of_N (n + 32)
  else c.

Fixpoint lower (s : string) : string :=
  match s with
  | EmptyString => EmptyString
  | String c s' => String (lower_char c) (lower s')
  end.

(** What one [sock.recv(4096)] of [listen] gives: decoded data (empty
    when the server closed), or an exception. *)
Inductive chunk : Type :=
| Data (d : string)
| Failure.

Definition newline : string := String (ascii_of_nat 10) EmptyString.

(** [listen]: the arguments of its [print] calls, in order, for the
    chunks that the socket delivers. *)
Fixpoint listen (chunks : list chunk) : list string :=
  match chunks with
  | [] => []
  | Failure :: _ => []
  | Data d :: rest =>
      if String.eqb d "" then ["Disconnected from server."]
      else (newline ++ d)%string :: listen rest
  end.

(** The [while True] loop of [main]: [lines] are the lines that [input()]
    returns, call after call, before it raises [EOFError]; the result is
    the messages handed to [s.sendall], in order. *)
Fixpoint send_loop (lines : list string) : list string :=
  match lines with
  | [] => []
  | msg :: rest =>
      if String.eqb msg "" then send_loop rest
      else if String.eqb (lower msg) "/quit" then [msg]
      else msg :: send_loop rest
  end.

(** [main] after the connection is made: the first line read is sent as
    the username, whatever it is; [None] when that first [input()]
    already raises [EOFError], which [main] does not catch. *)
Definition main (lines : list string) : option (list string) :=
  match lines with
  | [] => None
  | username :: rest => Some (username :: send_loop rest)
  end.

End Client.

(* ===================================================================== *)
(** ** Strings: facts about [strip], [split] and slicing *)
(* ===================================================================== *)

Section StrFacts.

Lemma take_all (s : string) (n : nat) :
  String.length s <= n -> Str.take n s = s.
Proof.
  revert n; induction s as [|c s IH]; intros [|n] H; simpl in *;
    try reflexivity; try lia.
  now rewrite IH by lia.
Qed.

Lemma lstrip_head (c : ascii) (s : string) :
  Str.isspace c = false -> Str.lstrip (String c s) = String c s.
Proof. intros H; simpl; now rewrite H. Qed.

(** A suffix that [rstrip] keeps whole protects everything before it. *)
Lemma rstrip_app (a b : string) :
  b <> "" -> Str.rstrip b = b -> Str.rstrip (a ++ b) = (a ++ b)%string.
Proof.
  intros Hb Hr; induction a as [|c a IH]; simpl; [exact Hr|].
  rewrite IH. destruct (a ++ b)%string eqn:E; [|reflexivity].
  destruct a; simpl in E; [congruence|discriminate].
Qed.

Lemma startswith_app (p s : string) : Str.startswith (p ++ s) p = true.
Proof.
  induction p as [|c p IH]; simpl; [reflexivity|].
  now rewrite Ascii.eqb_refl, IH.
Qed.

Lemma split_nonempty (sep : ascii) (n : nat) (s : string) :
  Str.split sep n s <> [].
Proof.
  revert n; induction s as [|c s IH]; intros n; simpl; [discriminate|].
  destruct n; [discriminate|].
  destruct (Ascii.eqb c sep); [discriminate|].
  destruct (Str.split sep (S n) s); discriminate.
Qed.

(** Without the separator there is nothing to split. *)
Lemma split_lacks (sep : ascii) (n : nat) (tok : string) :
  Str.lacks sep tok = true -> Str.split sep n tok = [tok].
Proof.
  induction tok as [|c tok IH]; simpl; [reflexivity|].
  intros H; apply andb_true_iff in H as [Hc Ht].
  destruct n; [reflexivity|].
  apply negb_true_iff in Hc; rewrite Hc, (IH Ht); reflexivity.
Qed.

(** The first separator ends the first token. *)
Lemma split_token (sep : ascii) (n : nat) (tok rest : string) :
  Str.lacks sep tok = true ->
  Str.split sep (S n) (tok ++ String sep rest) = tok :: Str.split sep n rest.
Proof.
  induction tok as [|c tok IH]; simpl.
  - intros _; now rewrite Ascii.eqb_refl.
  - intros H; apply andb_true_iff in H as [Hc Ht].
    apply negb_true_iff in Hc; rewrite Hc.
    change (match Str.split sep (S n) (tok ++ String sep rest) with
            | [] => [String c ""]
            | h :: t => String c h :: t
            end = String c tok :: Str.split sep n rest).
    now rewrite (IH Ht).
Qed.

End StrFacts.

(* ===================================================================== *)
(** ** Dictionaries: facts about keys *)
(* ===================================================================== *)

Section DictFacts.
Context {V : Type}.
Implicit Types (d : dict V) (k : string) (v : V).

Lemma dict_mem_In k d : dict_mem k d = true <-> In k (dict_keys d).
Proof.
  unfold dict_mem; induction d as [|[k' v'] d IH]; simpl.
  - split; [discriminate|tauto].
  - destruct (String.eqb_spec k' k) as [->|Hne].
    + split; auto.
    + rewrite IH; split; [auto|intros [H|H]; [congruence|exact H]].
Qed.

Lemma dict_mem_false k d : dict_mem k d = false <-> ~ In k (dict_keys d).
Proof.
  rewrite <- dict_mem_In; destruct (dict_mem k d); split; congruence.
Qed.

Lemma dict_keys_set_new k v d :
  dict_mem k d = false -> dict_keys (dict_set k v d) = dict_keys d ++ [k].
Proof.
  unfold dict_mem; induction d as [|[k' v'] d IH]; simpl; [reflexivity|].
  destruct (String.eqb k' k); [discriminate|].
  intros H; simpl; now rewrite IH.
Qed.

Lemma dict_set_new k v d :
  dict_mem k d = false -> dict_set k v d = d ++ [(k, v)].
Proof.
  unfold dict_mem; induction d as [|[k' v'] d IH]; simpl; [reflexivity|].
  destruct (String.eqb k' k); [discriminate|].
  intros H; now rewrite IH.
Qed.

Lemma dict_keys_del_incl k d x :
  In x (dict_keys (dict_del k d)) -> In x (dict_keys d).
Proof.
  induction d as [|[k' v'] d IH]; simpl; [tauto|].
  destruct (String.eqb k' k); simpl; intuition.
Qed.

Lemma dict_del_NoDup k d :
  NoDup (dict_keys d) -> NoDup (dict_keys (dict_del k d)).
Proof.
  induction d as [|[k' v'] d IH]; simpl; [auto|].
  intros H; inversion H as [|? ? Hn Hd]; subst.
  destruct (String.eqb k' k); simpl; [exact Hd|].
  constructor; [|auto].
  intros Hin; apply Hn; eapply dict_keys_del_incl; eauto.
Qed.

Lemma dict_set_new_NoDup k v d :
  dict_mem k d = false -> NoDup (dict_keys d) ->
  NoDup (dict_keys (dict_set k v d)).
Proof.
  intros Hm Hd; rewrite dict_keys_set_new by exact Hm.
  apply NoDup_app; [exact Hd|repeat constructor; simpl; tauto|].
  intros x Hx [<-|[]]. now apply dict_mem_false in Hm.
Qed.

(** Once its key is deleted from a duplicate-free dictionary, it is gone. *)
Lemma dict_del_gone k d :
  NoDup (dict_keys d) -> ~ In k (dict_keys (dict_del k d)).
Proof.
  induction d as [|[k' v'] d IH]; simpl; [tauto|].
  intros H; inversion H as [|? ? Hn Hd]; subst.
  destruct (String.eqb_spec k' k) as [->|Hne]; simpl; [exact Hn|].
  intros [E|Hin]; [congruence|now apply IH].
Qed.

End DictFacts.

(* ===================================================================== *)
(** ** Running the primitives *)
(* ===================================================================== *)

Lemma bind_ret {A B} (a : A) (k : A -> M B) (s : world) :
  bind (ret a) k s = k a s.
Proof. reflexivity. Qed.

Lemma bind_get_clients {B} (k : dict websocket -> M B) (s : world) :
  bind get_clients k s = k (clients s) s.
Proof. reflexivity. Qed.

Lemma bind_put_clients {B} (d : dict websocket) (k : unit -> M B) (s : world) :
  bind (put_clients d) k s = k tt (mkWorld d (closed s) (log s)).
Proof. reflexivity. Qed.

Lemma bind_ws_close {B} (ws : websocket) (k : unit -> M B) (s : world) :
  bind (ws_close ws) k s
  = k tt (mkWorld (clients s) (ws :: closed s) (log s ++ [EvClose ws])).
Proof. reflexivity. Qed.

(** [send_json] never raises: a failed send only shows in the log. *)
Lemma send_json_run (ws : websocket) (p : packet) (s : world) :
  send_json ws p s
  = (Ok tt, mkWorld (clients s) (closed s)
              (log s ++ [EvSend ws p (is_open s ws)])).
Proof.
  unfold send_json, try_except, ws_send, ret, emit.
  destruct (is_open s ws); reflexivity.
Qed.

Lemma bind_send_json {B} (ws : websocket) (p : packet) (k : unit -> M B)
    (s : world) :
  bind (send_json ws p) k s
  = k tt (mkWorld (clients s) (closed s)
            (log s ++ [EvSend ws p (is_open s ws)])).
Proof. unfold bind; now rewrite send_json_run. Qed.

(** The loop of [broadcast_packet] over a snapshot: the handler that
    deletes the entry is never entered. *)
Lemma broadcast_loop_run (p : packet) (ex : option string)
    (items : dict websocket) (s : world) :
  for_each items (fun '(user, ws) =>
    if is_excluded user ex then ret tt
    else try_except (send_json ws p) (del_client user)) s
  = (Ok tt, mkWorld (clients s) (closed s)
              (log s ++ fanout p ex (closed s) items)).
Proof.
  revert s; induction items as [|[user ws] items IH]; intros s.
  - destruct s; simpl; unfold ret, fanout; simpl; now rewrite app_nil_r.
  - cbn [for_each]; unfold bind at 1.
    unfold fanout; cbn [filter].
    destruct (is_excluded user ex); cbn [negb map].
    + unfold ret at 1; rewrite IH; reflexivity.
    + unfold try_except; rewrite send_json_run, IH.
      cbn [clients closed log]; unfold is_open, fanout.
      now rewrite <- app_assoc.
Qed.

Lemma broadcast_packet_run (p : packet) (ex : option string) (s : world) :
  broadcast_packet p ex s
  = (Ok tt, mkWorld (clients s) (closed s)
              (log s ++ fanout p ex (closed s) (clients s))).
Proof.
  unfold broadcast_packet; rewrite bind_get_clients.
  apply broadcast_loop_run.
Qed.

Lemma bind_broadcast_packet {B} (p : packet) (ex : option string)
    (k : unit -> M B) (s : world) :
  bind (broadcast_packet p ex) k s
  = k tt (mkWorld (clients s) (closed s)
            (log s ++ fanout p ex (closed s) (clients s))).
Proof. unfold bind; now rewrite broadcast_packet_run. Qed.

Lemma bind_bind {A B C} (m : M A) (k : A -> M B) (k' : B -> M C) (s : world) :
  bind (bind m k) k' s = bind m (fun a => bind (k a) k') s.
Proof. unfold bind; destruct (m s) as [[a|e] s1]; reflexivity. Qed.

Lemma bind_raise {A B} (e : exn) (k : A -> M B) (s : world) :
  bind (raise e) k s = (Raise e, s).
Proof. reflexivity. Qed.

(** [try: x = json.loads(raw)  except: ...] as a test on the frame. *)
Lemma bind_try_loads {B} (raw : frame) (k : option json -> M B) (s : world) :
  bind (try_except (a <- json_loads raw ;; ret (Some a)) (ret None)) k s
  = k (match raw with NotJson => None | Json v => Some v end) s.
Proof. destruct raw; reflexivity. Qed.

Lemma bind_py_get_obj {B} (fields : list (string * json)) (key : string)
    (k : json -> M B) (s : world) :
  bind (py_get (JObj fields) key) k s
  = k (match dict_get key fields with Some v => v | None => JNull end) s.
Proof. reflexivity. Qed.

Lemma bind_py_item_some {B} (fields : list (string * json)) (key : string)
    (v : json) (k : json -> M B) (s : world) :
  dict_get key fields = Some v ->
  bind (py_item (JObj fields) key) k s = k v s.
Proof. intros H; unfold bind, py_item; now rewrite H. Qed.

Lemma bind_py_contains_obj {B} (fields : list (string * json)) (key : string)
    (k : bool -> M B) (s : world) :
  bind (py_contains key (JObj fields)) k s = k (dict_mem key fields) s.
Proof. reflexivity. Qed.

Lemma bind_py_strip_str {B} (x : string) (k : string -> M B) (s : world) :
  bind (py_strip (JStr x)) k s = k (Str.strip x) s.
Proof. reflexivity. Qed.

Create Rewrite HintDb coro.
#[local] Hint Rewrite @bind_ret @bind_get_clients @bind_put_clients
  @bind_ws_close @bind_send_json @bind_broadcast_packet @bind_bind
  @bind_raise @bind_try_loads @bind_py_get_obj @bind_py_contains_obj
  @bind_py_strip_str : coro.

(** Unfold one coroutine and run its primitive calls. *)
Ltac run_coro := repeat (autorewrite with coro; cbn [clients closed log]).
Ltac run_coro_in H :=
  repeat (autorewrite with coro in H; cbn [clients closed log] in H).

Lemma reject_run (ws : websocket) (reason : string) (s : world) :
  reject ws reason s
  = (Ok None, mkWorld (clients s) (ws :: closed s)
                (log s ++ [EvSend ws (AuthFail reason) (is_open s ws);
                           EvClose ws])).
Proof.
  unfold reject; run_coro; unfold ret; now rewrite <- app_assoc.
Qed.

(* ===================================================================== *)
(** ** The authentication phase *)
(* ===================================================================== *)

Lemma json_is_str_true (j : json) (x : string) :
  json_is_str j x = true -> j = JStr x.
Proof.
  destruct j; simpl; try discriminate.
  intros H; apply String.eqb_eq in H; now subst.
Qed.

Lemma truthy_str (x : string) : truthy (JStr x) = true <-> x <> "".
Proof.
  simpl; destruct (String.eqb_spec x ""); simpl; split; congruence.
Qed.

(** A well-formed auth message with the room password either joins under
    the trimmed username or is turned away because that name is taken. *)
Lemma authenticate_presented (ws : websocket) (fields : list (string * json))
    (u : string) (s : world) :
  presents fields u CHAT_PASSWORD ->
  authenticate ws (Received (Json (JObj fields))) s
  = if dict_mem (Str.strip u) (clients s)
    then reject ws "Username already taken" s
    else (Ok (Some (Str.strip u)), joined (Str.strip u) ws s).
Proof.
  intros (Ht & Hu & Hne & Hp & _).
  unfold authenticate. run_coro. rewrite Ht.
  change (negb (json_is_str (JStr "auth") "auth")) with false. cbv iota.
  run_coro. rewrite Hu.
  apply truthy_str in Hne; rewrite Hne. cbn [negb].
  run_coro. rewrite Hp.
  change (negb (truthy (JStr CHAT_PASSWORD))) with false. run_coro.
  rewrite (bind_py_item_some _ _ _ _ _ Hu). run_coro.
  rewrite (bind_py_item_some _ _ _ _ _ Hp).
  change (negb (json_is_str (JStr CHAT_PASSWORD) CHAT_PASSWORD)) with false.
  cbv iota. run_coro.
  destruct (dict_mem (Str.strip u) (clients s)); [reflexivity|].
  run_coro. unfold ret, joined, is_open; cbn [clients closed log].
  now rewrite <- !app_assoc.
Qed.

(** Every run of the authentication phase either joins, through a
    well-formed auth message carrying the room password and a free trimmed
    username, or leaves the registry as it was. *)
Lemma authenticate_cases (ws : websocket) (first : first_recv) (s : world) :
  (exists fields u,
      first = Received (Json (JObj fields)) /\
      presents fields u CHAT_PASSWORD /\
      dict_mem (Str.strip u) (clients s) = false /\
      authenticate ws first s
      = (Ok (Some (Str.strip u)), joined (Str.strip u) ws s))
  \/ (clients (snd (authenticate ws first s)) = clients s /\
      forall username, fst (authenticate ws first s) <> Ok (Some username)).
Proof.
  remember (authenticate ws first s) as out eqn:E0.
  pose proof E0 as E.
  assert (Hrej : forall reason, out = reject ws reason s ->
    clients (snd out) = clients s /\
    forall username, fst out <> Ok (Some username))
    by (intros ? ->; rewrite reject_run; split; [reflexivity|discriminate]).
  assert (Hraise : forall e, out = (Raise e, s) ->
    clients (snd out) = clients s /\
    forall username, fst out <> Ok (Some username))
    by (intros ? ->; split; [reflexivity|discriminate]).
  destruct first as [| |[|auth]]; cbn [authenticate] in E; run_coro_in E;
    try (right; eapply Hrej; exact E); try (right; eapply Hraise; exact E).
  destruct auth as [ |b|n|x|items|fields];
    try (right; eapply Hraise; exact E).
  run_coro_in E.
  destruct (dict_get "type" fields) as [t|] eqn:Ht;
    [|cbn [json_is_str negb] in E; run_coro_in E; right; eapply Hrej; exact E].
  destruct (json_is_str t "auth") eqn:Et; cbn [negb] in E; run_coro_in E;
    [|right; eapply Hrej; exact E].
  apply json_is_str_true in Et; subst t.
  destruct (dict_get "username" fields) as [ju|] eqn:Hu;
    [|cbn [truthy negb] in E; run_coro_in E; right; eapply Hrej; exact E].
  destruct (truthy ju) eqn:Tu; cbn [negb] in E; run_coro_in E;
    [|right; eapply Hrej; exact E].
  destruct (dict_get "password" fields) as [jp|] eqn:Hp;
    [|cbn [truthy negb] in E; run_coro_in E; right; eapply Hrej; exact E].
  destruct (truthy jp) eqn:Tp; cbn [negb] in E; run_coro_in E;
    [|right; eapply Hrej; exact E].
  rewrite (bind_py_item_some _ _ _ _ _ Hu) in E.
  destruct ju as [ |b|n|u|items|fs]; try (right; eapply Hraise; exact E).
  run_coro_in E. rewrite (bind_py_item_some _ _ _ _ _ Hp) in E.
  destruct (json_is_str jp CHAT_PASSWORD) eqn:Ep; cbn [negb] in E;
    [|right; eapply Hrej; exact E].
  apply json_is_str_true in Ep; subst jp.
  run_coro_in E.
  destruct (dict_mem (Str.strip u) (clients s)) eqn:Hm;
    [right; eapply Hrej; exact E|].
  left; exists fields, u.
  assert (Hpres : presents fields u CHAT_PASSWORD).
  { repeat split; auto; [now apply truthy_str|discriminate]. }
  repeat split; try apply Hpres; auto.
  now rewrite E0, (authenticate_presented ws fields u s Hpres), Hm.
Qed.

(* ===================================================================== *)
(** ** The receive loop and the teardown *)
(* ===================================================================== *)

(** A chat packet with a string text reaches the dispatcher, truncated. *)
Lemma on_incoming_chat (username : string) (ws : websocket)
    (fields : list (string * json)) (text ts : string) (s : world) :
  dict_get "type" fields = Some (JStr "chat") ->
  dict_get "text" fields = Some (JStr text) ->
  on_incoming username ws (Json (JObj fields)) ts s
  = dispatch username ws (Str.take (N.to_nat MAX_MSG) text) ts s.
Proof.
  intros Ht Hx. unfold on_incoming. run_coro. rewrite Ht.
  change (negb (json_is_str (JStr "chat") "chat")) with false. cbv iota.
  run_coro. unfold dict_mem; rewrite Hx. cbn [negb].
  rewrite (bind_py_item_some _ _ _ _ _ Hx).
  unfold py_slice_to. run_coro. reflexivity.
Qed.

(** [handle_command] always returns, and never touches the registry. *)
Lemma handle_command_returns (username text : string) (ws : websocket)
    (ts : string) (s : world) :
  exists handled s1,
    handle_command username text ws ts s = (Ok handled, s1) /\
    clients s1 = clients s.
Proof.
  unfold handle_command.
  destruct (String.eqb (Str.strip text) "/users").
  { run_coro. unfold ret; eauto. }
  destruct (Str.startswith (Str.strip text) "/msg ").
  { destruct (Nat.ltb _ 3).
    - run_coro. unfold ret; eauto.
    - run_coro. destruct (dict_get _ (clients s)); run_coro; unfold ret; eauto. }
  destruct (String.eqb (Str.strip text) "/quit").
  { run_coro. unfold ret; eauto. }
  unfold ret; eauto.
Qed.

(** Which texts are commands: exactly those three tests of the source. *)
Lemma handle_command_handled (username text : string) (ws : websocket)
    (ts : string) (s : world) :
  fst (handle_command username text ws ts s)
  = Ok (String.eqb (Str.strip text) "/users"
        || Str.startswith (Str.strip text) "/msg "
        || String.eqb (Str.strip text) "/quit").
Proof.
  unfold handle_command.
  destruct (String.eqb (Str.strip text) "/users").
  { run_coro. reflexivity. }
  destruct (Str.startswith (Str.strip text) "/msg ").
  { destruct (Nat.ltb _ 3).
    - run_coro. reflexivity.
    - run_coro. destruct (dict_get _ (clients s)); run_coro; reflexivity. }
  destruct (String.eqb (Str.strip text) "/quit").
  { run_coro. reflexivity. }
  reflexivity.
Qed.

Lemma dispatch_clients (username : string) (ws : websocket)
    (text ts : string) (s : world) :
  clients (snd (dispatch username ws text ts s)) = clients s.
Proof.
  unfold dispatch.
  destruct (handle_command_returns username text ws ts s)
    as (handled & s1 & E & Hc).
  unfold bind at 1; rewrite E.
  destruct handled; run_coro; rewrite broadcast_packet_run; exact Hc.
Qed.

Lemma dispatch_handled (username : string) (ws : websocket)
    (text ts : string) (s s1 : world) :
  handle_command username text ws ts s = (Ok true, s1) ->
  dispatch username ws text ts s
  = (Ok tt,
     mkWorld (clients s1) (closed s1)
       (log s1 ++ fanout (Users (dict_keys (clients s1))) None (closed s1)
                    (clients s1))).
Proof.
  intros H. unfold dispatch, bind at 1. rewrite H. run_coro.
  now rewrite broadcast_packet_run.
Qed.

(** No iteration of the receive loop changes the registry. *)
Lemma on_incoming_clients (username : string) (ws : websocket)
    (incoming : frame) (ts : string) (s : world) :
  clients (snd (on_incoming username ws incoming ts s)) = clients s.
Proof.
  destruct incoming as [|pkt].
  { unfold on_incoming; run_coro; now rewrite send_json_run. }
  destruct pkt as [ |b|n|x|items|fields];
    try (unfold on_incoming; run_coro; reflexivity).
  destruct (dict_get "type" fields) as [t|] eqn:Ht.
  2:{ unfold on_incoming; run_coro; rewrite Ht.
      cbn [json_is_str negb]; run_coro; now rewrite send_json_run. }
  destruct (json_is_str t "chat") eqn:Et.
  2:{ unfold on_incoming; run_coro; rewrite Ht, Et.
      cbn [negb]; run_coro; now rewrite send_json_run. }
  apply json_is_str_true in Et; subst t.
  destruct (dict_get "text" fields) as [v|] eqn:Hx.
  2:{ unfold on_incoming; run_coro; rewrite Ht.
      change (negb (json_is_str (JStr "chat") "chat")) with false. cbv iota.
      run_coro. unfold dict_mem; rewrite Hx. cbn [negb].
      now rewrite send_json_run. }
  destruct v as [ |b|n|text|items|fs];
    try (unfold on_incoming; run_coro; rewrite Ht;
         change (negb (json_is_str (JStr "chat") "chat")) with false; cbv iota;
         run_coro; unfold dict_mem; rewrite Hx; cbn [negb];
         rewrite (bind_py_item_some _ _ _ _ _ Hx);
         unfold py_slice_to; run_coro; reflexivity).
  rewrite (on_incoming_chat _ _ _ _ _ _ Ht Hx). apply dispatch_clients.
Qed.

Lemma teardown_run (username : string) (ws : websocket) (s : world) :
  teardown username ws s
  = (Ok tt,
     let d := without username ws (clients s) in
     mkWorld d (closed s)
       (log s
        ++ fanout (System ("*** " ++ username ++ " left the chat ***")) None
             (closed s) d
        ++ fanout (Users (dict_keys d)) None (closed s) d)).
Proof.
  unfold teardown, without. run_coro.
  destruct (still_mine username ws (clients s)); run_coro;
    rewrite broadcast_packet_run; cbn [clients closed log];
    now rewrite <- app_assoc.
Qed.

(* ===================================================================== *)
(** ** Invariant: usernames are unique *)
(* ===================================================================== *)

Lemma step_NoDup (s : world) (e : server_step) :
  NoDup (dict_keys (clients s)) -> NoDup (dict_keys (clients (step s e))).
Proof.
  intros H; destruct e as [ws first|username ws incoming ts|username ws|ws];
    cbn [step].
  - destruct (authenticate_cases ws first s)
      as [(fields & u & _ & _ & Hm & ->)|[-> _]]; [|exact H].
    cbn [snd joined clients]. now apply dict_set_new_NoDup.
  - now rewrite on_incoming_clients.
  - rewrite teardown_run; cbn [snd clients]; unfold without.
    destruct (still_mine _ _ _); [now apply dict_del_NoDup|exact H].
  - exact H.
Qed.

Lemma run_NoDup (es : list server_step) (s : world) :
  NoDup (dict_keys (clients s)) -> NoDup (dict_keys (clients (run es s))).
Proof.
  revert s; induction es as [|e es IH]; intros s H; [exact H|].
  cbn [run fold_left]. apply IH. now apply step_NoDup.
Qed.

(* ===================================================================== *)
(** ** Fan-out facts *)
(* ===================================================================== *)

Lemma fanout_all (p : packet) (shut : list websocket) (d : dict websocket)
    (user : string) (ws : websocket) :
  In (user, ws) d ->
  In (EvSend ws p (negb (existsb (Nat.eqb ws) shut))) (fanout p None shut d).
Proof.
  intros H; unfold fanout; cbn [is_excluded negb].
  apply in_map_iff; exists (user, ws); split; [reflexivity|].
  apply filter_In; auto.
Qed.

(** Excluding a name that is not in the snapshot excludes nobody, and a
    newcomer appended under that name is skipped. *)
Lemma fanout_exclude_new (p : packet) (shut : list websocket)
    (d : dict websocket) (user : string) (ws : websocket) :
  ~ In user (dict_keys d) ->
  fanout p (Some user) shut (d ++ [(user, ws)]) = fanout p None shut d.
Proof.
  intros Hn; unfold fanout; f_equal.
  rewrite filter_app; cbn [filter is_excluded].
  rewrite String.eqb_refl; cbn [negb]; rewrite app_nil_r.
  apply filter_ext_in; intros [k w] Hin.
  destruct (String.eqb_spec k user) as [->|]; [|reflexivity].
  exfalso; apply Hn; apply in_map_iff; exists (user, w); auto.
Qed.

(* ===================================================================== *)
(** ** The claims *)
(* ===================================================================== *)

(** C1 (registry uniqueness).  In every state the server reaches from the
    empty registry, through any interleaving of authentication attempts,
    loop iterations, teardowns and lost connections, the usernames of the
    registry are pairwise distinct; and an authentication attempt that
    presents the room password and a username whose trimmed form is
    already registered is answered by the single packet
    [AuthFail "Username already taken"], the connection is closed, the
    handler returns, and the registry is exactly what it was. *)
Theorem registry_uniqueness (es : list server_step) :
  NoDup (dict_keys (clients (run es initial))) /\
  forall (ws : websocket) (fields : list (string * json)) (u : string)
         (frames : list (frame * string)) (broken : bool),
    presents fields u CHAT_PASSWORD ->
    In (Str.strip u) (dict_keys (clients (run es initial))) ->
    handler ws (Received (Json (JObj fields))) frames broken (run es initial)
    = (Ok tt,
       mkWorld (clients (run es initial)) (ws :: closed (run es initial))
         (log (run es initial)
          ++ [EvSend ws (AuthFail "Username already taken")
                (is_open (run es initial) ws);
              EvClose ws])).
Proof.
  split.
  - apply run_NoDup; constructor.
  - intros ws fields u frames broken Hp Hin.
    unfold handler, bind.
    rewrite (authenticate_presented ws fields u _ Hp).
    apply dict_mem_In in Hin; rewrite Hin.
    now rewrite reject_run.
Qed.

Lemma registry_uniqueness_witness :
  let es := [Accept 1 (Received (auth_frame "alice" CHAT_PASSWORD))] in
  let fields := [("type", JStr "auth"); ("username", JStr " alice ");
                 ("password", JStr CHAT_PASSWORD)] in
  presents fields " alice " CHAT_PASSWORD /\
  In (Str.strip " alice ") (dict_keys (clients (run es initial))) /\
  NoDup (dict_keys (clients (run es initial))) /\
  handler 2 (Received (Json (JObj fields))) [] false (run es initial)
  = (Ok tt,
     mkWorld (clients (run es initial)) (2 :: closed (run es initial))
       (log (run es initial)
        ++ [EvSend 2 (AuthFail "Username already taken")
              (is_open (run es initial) 2);
            EvClose 2])).
Proof.
  intros es fields.
  assert (Hp : presents fields " alice " CHAT_PASSWORD)
    by (repeat split; discriminate).
  assert (Hin : In (Str.strip " alice ") (dict_keys (clients (run es initial))))
    by (vm_compute; auto).
  destruct (registry_uniqueness es) as [Hnd Hrej].
  split; [exact Hp|]. split; [exact Hin|]. split; [exact Hnd|].
  exact (Hrej 2 fields " alice " [] false Hp Hin).
Defined.

(** C9 (auth timeout).  When the first receive times out, the handler
    makes exactly one send on the connection, the packet
    [AuthFail "No auth received"], closes the connection and returns: the
    frames that might follow are never read and the registry is
    untouched. *)
Theorem auth_timeout (ws : websocket) (frames : list (frame * string))
    (broken : bool) (s : world) :
  handler ws TimedOut frames broken s
  = (Ok tt,
     mkWorld (clients s) (ws :: closed s)
       (log s ++ [EvSend ws (AuthFail "No auth received") (is_open s ws);
                  EvClose ws])).
Proof.
  unfold handler, bind; cbn [authenticate]. now rewrite reject_run.
Qed.

(** C8 (join notification order).  Whenever the authentication phase
    succeeds for [username] on [ws], the registry gains the entry
    [(username, ws)] at its end and the calls made are, in this order:
    [AuthOk] to [ws]; the join notice to every entry registered before,
    which is the fan-out that excludes the joiner; the [Users] snapshot of
    the new registry, naming the joiner, to every entry, the joiner
    included. *)
Theorem join_notification_order (ws : websocket) (first : first_recv)
    (username : string) (s s' : world) :
  authenticate ws first s = (Ok (Some username), s') ->
  let notice := System ("*** " ++ username ++ " joined the chat ***") in
  clients s' = clients s ++ [(username, ws)] /\
  log s' = log s
           ++ [EvSend ws AuthOk (is_open s ws)]
           ++ fanout notice (Some username) (closed s) (clients s')
           ++ fanout (Users (dict_keys (clients s'))) None (closed s) (clients s') /\
  fanout notice (Some username) (closed s) (clients s')
  = fanout notice None (closed s) (clients s) /\
  In username (dict_keys (clients s')) /\
  In (EvSend ws (Users (dict_keys (clients s'))) (is_open s ws))
     (fanout (Users (dict_keys (clients s'))) None (closed s) (clients s')).
Proof.
  intros H notice.
  destruct (authenticate_cases ws first s)
    as [(fields & u & _ & _ & Hm & E)|[_ Hno]].
  2:{ exfalso; apply (Hno username); now rewrite H. }
  rewrite E in H; injection H as <- <-.
  assert (Hc : clients (joined (Str.strip u) ws s)
               = clients s ++ [(Str.strip u, ws)])
    by (cbn [joined clients]; now apply dict_set_new).
  split; [|split; [|split; [|split]]].
  - exact Hc.
  - reflexivity.
  - rewrite Hc. apply fanout_exclude_new. now apply dict_mem_false.
  - rewrite Hc. unfold dict_keys; rewrite map_app. apply in_or_app; right.
    now left.
  - apply (fanout_all _ _ _ (Str.strip u)).
    rewrite Hc; apply in_or_app; right; now left.
Qed.

Lemma join_notification_order_witness :
  let s := run [Accept 1 (Received (auth_frame "alice" CHAT_PASSWORD))] initial in
  let s' := snd (authenticate 2 (Received (auth_frame "bob" CHAT_PASSWORD)) s) in
  authenticate 2 (Received (auth_frame "bob" CHAT_PASSWORD)) s
  = (Ok (Some "bob"), s') /\
  clients s' = [("alice", 1); ("bob", 2)] /\
  log s' = log s
           ++ [EvSend 2 AuthOk true;
               EvSend 1 (System "*** bob joined the chat ***") true;
               EvSend 1 (Users ["alice"; "bob"]) true;
               EvSend 2 (Users ["alice"; "bob"]) true].
Proof.
  intros s s'.
  assert (E : authenticate 2 (Received (auth_frame "bob" CHAT_PASSWORD)) s
              = (Ok (Some "bob"), s')) by (vm_compute; reflexivity).
  destruct (join_notification_order 2 _ "bob" s s' E) as (Hc & Hl & _).
  split; [exact E|]. split; [exact Hc|]. rewrite Hl. vm_compute. reflexivity.
Defined.

(** C4 (users refresh after every command).  When the truncated and
    trimmed text of a chat packet passes one of the three command tests
    of [handle_command] ([/users], a text starting with [/msg ], whose
    replies include the usage and not-found errors, or [/quit]), the
    command is reported as handled, it leaves the registry unchanged, and
    the loop iteration ends by sending a [Users] snapshot of the registry
    to every registry entry. *)
Theorem users_refresh_after_command (username : string) (ws : websocket)
    (fields : list (string * json)) (text ts : string) (s : world) :
  dict_get "type" fields = Some (JStr "chat") ->
  dict_get "text" fields = Some (JStr text) ->
  String.eqb (Str.strip (Str.take (N.to_nat MAX_MSG) text)) "/users"
  || Str.startswith (Str.strip (Str.take (N.to_nat MAX_MSG) text)) "/msg "
  || String.eqb (Str.strip (Str.take (N.to_nat MAX_MSG) text)) "/quit"
  = true ->
  exists s1,
    handle_command username (Str.take (N.to_nat MAX_MSG) text) ws ts s
    = (Ok true, s1) /\
    clients s1 = clients s /\
    on_incoming username ws (Json (JObj fields)) ts s
    = (Ok tt,
       mkWorld (clients s) (closed s1)
         (log s1 ++ fanout (Users (dict_keys (clients s))) None (closed s1)
                      (clients s))) /\
    forall user w, In (user, w) (clients s) ->
      In (EvSend w (Users (dict_keys (clients s))) (is_open s1 w))
         (fanout (Users (dict_keys (clients s))) None (closed s1) (clients s)).
Proof.
  intros Ht Hx Hcmd.
  destruct (handle_command_returns username
              (Str.take (N.to_nat MAX_MSG) text) ws ts s)
    as (handled & s1 & E & Hreg).
  pose proof (handle_command_handled username
                (Str.take (N.to_nat MAX_MSG) text) ws ts s) as Hh.
  rewrite E, Hcmd in Hh; cbn [fst] in Hh; injection Hh as ->.
  exists s1. split; [exact E|]. split; [exact Hreg|]. split.
  - rewrite (on_incoming_chat _ _ _ _ _ _ Ht Hx).
    rewrite (dispatch_handled _ _ _ _ _ _ E), Hreg. reflexivity.
  - intros user w Hin. now apply (fanout_all _ _ _ user).
Qed.

Lemma users_refresh_after_command_witness :
  let s := mkWorld [("alice", 1); ("bob", 2)] [] [] in
  Str.startswith (Str.strip (Str.take (N.to_nat MAX_MSG) "/msg carol hi"))
    "/msg " = true /\
  exists s1,
    handle_command "alice" (Str.take (N.to_nat MAX_MSG) "/msg carol hi")
      1 "noon" s = (Ok true, s1) /\
    clients s1 = clients s /\
    on_incoming "alice" 1 (chat_frame "/msg carol hi") "noon" s
    = (Ok tt,
       mkWorld (clients s) (closed s1)
         (log s1 ++ fanout (Users (dict_keys (clients s))) None (closed s1)
                      (clients s))).
Proof.
  intros s.
  assert (Hc : Str.startswith
                 (Str.strip (Str.take (N.to_nat MAX_MSG) "/msg carol hi"))
                 "/msg " = true) by (vm_compute; reflexivity).
  split; [exact Hc|].
  destruct (users_refresh_after_command "alice" 1
              [("type", JStr "chat"); ("text", JStr "/msg carol hi")]
              "/msg carol hi" "noon" s eq_refl eq_refl)
    as (s1 & E & Hreg & Hrun & _).
  - rewrite Hc. now rewrite orb_true_r.
  - exists s1. split; [exact E|]. split; [exact Hreg|]. exact Hrun.
Defined.

(** C2 (prune on send failure) fails on the code: [send_json] swallows
    the failure of [ws.send], so the handler of [broadcast_packet] that
    deletes the entry is never entered.  Here alice's connection is
    closed: her send fails and she stays registered. *)
Theorem broadcast_keeps_failed_entry :
  broadcast_packet (System "hi") None
    (mkWorld [("alice", 1); ("bob", 2)] [1] [])
  = (Ok tt,
     mkWorld [("alice", 1); ("bob", 2)] [1]
       [EvSend 1 (System "hi") false; EvSend 2 (System "hi") true]).
Proof. vm_compute. reflexivity. Qed.

(** The same in general: no broadcast ever changes the registry. *)
Lemma broadcast_packet_clients (p : packet) (ex : option string) (s : world) :
  clients (snd (broadcast_packet p ex s)) = clients s.
Proof. now rewrite broadcast_packet_run. Qed.

(** C6 (non-empty trimmed usernames) fails on the code: the emptiness
    test sees the username before it is trimmed, so a username made of
    blanks passes it and is registered under the empty name. *)
Theorem blank_username_is_registered :
  authenticate 4 (Received (auth_frame "   " CHAT_PASSWORD)) initial
  = (Ok (Some ""),
     mkWorld [("", 4)] []
       [EvSend 4 AuthOk true; EvSend 4 (Users [""]) true]).
Proof. vm_compute. reflexivity. Qed.

(** The part of C6 that holds: a registration always uses the trimmed form
    of the username that the auth message supplied. *)
Lemma registered_name_is_trimmed (ws : websocket) (first : first_recv)
    (username : string) (s s' : world) :
  authenticate ws first s = (Ok (Some username), s') ->
  exists fields u,
    first = Received (Json (JObj fields)) /\
    dict_get "username" fields = Some (JStr u) /\
    username = Str.strip u /\
    clients s' = dict_set username ws (clients s).
Proof.
  intros H.
  destruct (authenticate_cases ws first s)
    as [(fields & u & -> & Hp & _ & E)|[_ Hno]].
  2:{ exfalso; apply (Hno username); now rewrite H. }
  rewrite E in H; injection H as <- <-.
  exists fields, u. destruct Hp as (_ & Hu & _). auto.
Qed.

(** C5 (recoverable packet errors) fails on the code for an ill-typed
    [text]: slicing the number raises [TypeError] out of the loop, the
    [finally] block deregisters alice, the handler ends with the
    exception, the next frame is never read and no [System] reply is
    sent. *)
Theorem ill_typed_text_ends_session :
  handler 1 (Received (auth_frame "alice" CHAT_PASSWORD))
    [(Json (JObj [("type", JStr "chat"); ("text", JNum 5)]), "noon");
     (chat_frame "hi", "noon")]
    false initial
  = (Raise TypeError,
     mkWorld [] []
       [EvSend 1 AuthOk true; EvSend 1 (Users ["alice"]) true]).
Proof. vm_compute. reflexivity. Qed.

(** The cases of C5 that hold: a frame that is not JSON, and an object
    with another type tag or without [text], get a [System] reply and the
    loop goes on with the registry and the connections as they were. *)
Lemma recoverable_packets (username : string) (ws : websocket)
    (fields : list (string * json)) (ts : string) (s : world) :
  on_incoming username ws NotJson ts s
  = (Ok tt, mkWorld (clients s) (closed s)
              (log s ++ [EvSend ws (System "Malformed packet (expecting JSON).")
                           (is_open s ws)])) /\
  (dict_get "type" fields <> Some (JStr "chat") \/
   dict_get "text" fields = None ->
   on_incoming username ws (Json (JObj fields)) ts s
   = (Ok tt, mkWorld (clients s) (closed s)
               (log s ++ [EvSend ws (System "Unknown packet type.")
                            (is_open s ws)]))).
Proof.
  split.
  - unfold on_incoming. run_coro. now rewrite send_json_run.
  - intros H. unfold on_incoming. run_coro.
    destruct (dict_get "type" fields) as [t|] eqn:Ht.
    2:{ cbn [json_is_str negb]. run_coro. now rewrite send_json_run. }
    destruct (json_is_str t "chat") eqn:Et.
    2:{ cbn [negb]. run_coro. now rewrite send_json_run. }
    apply json_is_str_true in Et; subst t.
    destruct H as [H|H]; [congruence|].
    cbn [negb]. run_coro. unfold dict_mem; rewrite H. cbn [negb].
    now rewrite send_json_run.
Qed.

(* ===================================================================== *)
(** ** The commands, one by one *)
(* ===================================================================== *)

Lemma split_zero (sep : ascii) (s : string) : Str.split sep 0 s = [s].
Proof. destruct s; reflexivity. Qed.

(** A text that starts with a non-blank character and ends with a
    non-empty tail that [rstrip] keeps is its own trimmed form. *)
Lemma strip_fixed (c : ascii) (a b : string) :
  Str.isspace c = false -> b <> "" -> Str.rstrip b = b ->
  Str.strip (String c (a ++ b)) = String c (a ++ b).
Proof.
  intros Hc Hb Hr; unfold Str.strip. rewrite (lstrip_head _ _ Hc).
  now apply (rstrip_app (String c a) b).
Qed.

Lemma str_app_assoc (a b c : string) :
  ((a ++ b) ++ c)%string = (a ++ (b ++ c))%string.
Proof. induction a as [|x a IH]; simpl; [reflexivity|now rewrite IH]. Qed.

Lemma strip_msg (target message : string) :
  message <> "" -> Str.rstrip message = message ->
  Str.strip ("/msg " ++ target ++ " " ++ message)
  = ("/msg " ++ target ++ " " ++ message)%string.
Proof.
  intros Hne Hr.
  pose proof (strip_fixed "/" ("msg " ++ target ++ " ") message
                eq_refl Hne Hr) as E.
  rewrite !str_app_assoc in E. exact E.
Qed.

(** [/msg] followed by one token only: the usage reply. *)
Lemma handle_command_usage (username text tok : string) (ws : websocket)
    (ts : string) (s : world) :
  Str.strip text = ("/msg " ++ tok)%string ->
  Str.lacks " " tok = true ->
  handle_command username text ws ts s
  = (Ok true,
     mkWorld (clients s) (closed s)
       (log s ++ [EvSend ws (System "Usage: /msg <user> <message>")
                    (is_open s ws)])).
Proof.
  intros Hs Hl. unfold handle_command. rewrite Hs.
  change (String.eqb ("/msg " ++ tok) "/users") with false. cbv iota.
  rewrite startswith_app.
  change ("/msg " ++ tok)%string with ("/msg" ++ String " " tok)%string.
  rewrite split_token by reflexivity.
  rewrite (split_lacks _ _ _ Hl). cbn [List.length Nat.ltb Nat.leb].
  run_coro. reflexivity.
Qed.

(** [/msg <user> <message>] to a registered user. *)
Lemma handle_command_private (username text target message : string)
    (ws wt : websocket) (ts : string) (s : world) :
  Str.strip text = ("/msg " ++ target ++ " " ++ message)%string ->
  Str.lacks " " target = true ->
  dict_get target (clients s) = Some wt ->
  handle_command username text ws ts s
  = (Ok true,
     mkWorld (clients s) (closed s)
       (log s ++ [EvSend wt (Private username message ts) (is_open s wt);
                  EvSend ws (System "Private message sent.") (is_open s ws)])).
Proof.
  intros Hs Hl Hg. unfold handle_command. rewrite Hs.
  change (String.eqb ("/msg " ++ target ++ " " ++ message) "/users")
    with false. cbv iota.
  rewrite startswith_app.
  change ("/msg " ++ target ++ " " ++ message)%string
    with ("/msg" ++ String " " (target ++ String " " message))%string.
  rewrite split_token by reflexivity.
  rewrite (split_token _ _ _ _ Hl), split_zero.
  cbn [List.length Nat.ltb Nat.leb nth]. run_coro. rewrite Hg. run_coro.
  unfold ret, is_open; cbn [closed]. now rewrite <- app_assoc.
Qed.

(** [/quit]: the goodbye, then the connection is closed. *)
Lemma handle_command_quit (username text : string) (ws : websocket)
    (ts : string) (s : world) :
  Str.strip text = "/quit" ->
  handle_command username text ws ts s
  = (Ok true,
     mkWorld (clients s) (ws :: closed s)
       (log s ++ [EvSend ws (System "Goodbye.") (is_open s ws); EvClose ws])).
Proof.
  intros Hs. unfold handle_command. rewrite Hs.
  change (String.eqb "/quit" "/users") with false.
  change (Str.startswith "/quit" "/msg ") with false.
  change (String.eqb "/quit" "/quit") with true. cbv iota.
  run_coro. unfold ret. now rewrite <- app_assoc.
Qed.

Lemma fanout_users_quiet (l : list string) (shut : list websocket)
    (d : dict websocket) :
  existsb is_chat_or_private (fanout (Users l) None shut d) = false.
Proof.
  unfold fanout. induction (filter _ d) as [|[k w] r IH]; [reflexivity|].
  exact IH.
Qed.

(** C3 (private delivery isolation), as the code has it.  For a target
    name without a space that is registered, and a text
    [/msg <target> <message>] that fits in [MAX_MSG] (the claim's message
    is [hello]), the loop iteration makes exactly these calls, in order:
    one [Private] packet from the sender with the message to the target's
    websocket, the [System] acknowledgment to the sender's websocket, and
    then the [Users] snapshot to every registry entry. *)
Theorem private_message_delivery (sender target message : string)
    (ws wt : websocket) (fields : list (string * json)) (ts : string)
    (s : world) :
  dict_get "type" fields = Some (JStr "chat") ->
  dict_get "text" fields
  = Some (JStr ("/msg " ++ target ++ " " ++ message)) ->
  (N.of_nat (String.length ("/msg " ++ target ++ " " ++ message)) <= MAX_MSG)%N ->
  Str.lacks " " target = true ->
  message <> "" -> Str.rstrip message = message ->
  dict_get target (clients s) = Some wt ->
  on_incoming sender ws (Json (JObj fields)) ts s
  = (Ok tt,
     mkWorld (clients s) (closed s)
       (log s
        ++ [EvSend wt (Private sender message ts) (is_open s wt);
            EvSend ws (System "Private message sent.") (is_open s ws)]
        ++ fanout (Users (dict_keys (clients s))) None (closed s) (clients s))).
Proof.
  intros Ht Hx Hlen Hl Hne Hr Hg.
  rewrite (on_incoming_chat _ _ _ _ _ _ Ht Hx).
  rewrite take_all by lia.
  rewrite (dispatch_handled _ _ _ _ _ _
             (handle_command_private _ _ target message _ wt _ _
                (strip_msg target message Hne Hr) Hl Hg)).
  cbn [clients closed log]. now rewrite <- app_assoc.
Qed.

Lemma private_message_delivery_witness :
  let s := mkWorld [("alice", 1); ("bob", 2); ("carol", 3)] [] [] in
  (N.of_nat (String.length "/msg bob hello") <= MAX_MSG)%N /\
  Str.lacks " " "bob" = true /\
  Str.rstrip "hello" = "hello" /\
  dict_get "bob" (clients s) = Some 2 /\
  on_incoming "alice" 1 (chat_frame "/msg bob hello") "noon" s
  = (Ok tt,
     mkWorld (clients s) (closed s)
       (log s
        ++ [EvSend 2 (Private "alice" "hello" "noon") (is_open s 2);
            EvSend 1 (System "Private message sent.") (is_open s 1)]
        ++ fanout (Users (dict_keys (clients s))) None (closed s) (clients s))).
Proof.
  intros s.
  assert (Hlen : (N.of_nat (String.length "/msg bob hello") <= MAX_MSG)%N)
    by (vm_compute; discriminate).
  split; [exact Hlen|]. split; [reflexivity|]. split; [reflexivity|].
  split; [reflexivity|].
  apply (private_message_delivery "alice" "bob" "hello" 1 2
           [("type", JStr "chat"); ("text", JStr "/msg bob hello")] "noon" s
           eq_refl eq_refl Hlen eq_refl); [discriminate|reflexivity|reflexivity].
Defined.

(** C3 as stated fails on the code.  With alice, bob and carol in the
    room, alice's [/msg bob hello] also brings a [Users] packet to carol,
    who is neither the sender nor the target, and a second packet to
    alice after her acknowledgment.  With a target whose name has a
    space, the name is cut at the space and nothing is delivered to it.
    With a target whose name has 9990 characters the text exceeds
    [MAX_MSG] and the message arrives cut to [hell]. *)
Lemma private_message_reaches_bystanders :
  (let s := mkWorld [("alice", 1); ("bob", 2); ("carol", 3)] [] [] in
   let s' := snd (on_incoming "alice" 1 (chat_frame "/msg bob hello") "noon" s) in
   sent_to 3 (log s') = [(Users ["alice"; "bob"; "carol"], true)] /\
   sent_to 1 (log s') = [(System "Private message sent.", true);
                         (Users ["alice"; "bob"; "carol"], true)]) /\
  (let s := mkWorld [("alice", 1); ("bob smith", 2)] [] [] in
   let s' := snd (on_incoming "alice" 1
                    (chat_frame "/msg bob smith hello") "noon" s) in
   sent_to 2 (log s') = [(Users ["alice"; "bob smith"], true)] /\
   sent_to 1 (log s') = [(System "User 'bob' not found.", true);
                         (Users ["alice"; "bob smith"], true)]) /\
  (let long := string_of_list_ascii (repeat "b"%char (N.to_nat 9990)) in
   let s := mkWorld [("alice", 1); (long, 2)] [] [] in
   let s' := snd (on_incoming "alice" 1
                    (chat_frame ("/msg " ++ long ++ " hello")) "noon" s) in
   sent_to 2 (log s') = [(Private "alice" "hell" "noon", true);
                         (Users ["alice"; long], true)]).
Proof. vm_compute. repeat split. Qed.

(** C7 (usage error of [/msg]), as the code has it.  When the trimmed,
    truncated text is [/msg ] followed by a single token without a space
    (as in [/msg bob]), the loop iteration sends exactly one [System]
    reply [Usage: /msg <user> <message>] to the sender, followed by the
    [Users] snapshot to every registry entry; no [Chat] and no [Private]
    packet is sent to anyone. *)
Theorem msg_usage_reply (username : string) (ws : websocket)
    (fields : list (string * json)) (text tok ts : string) (s : world) :
  dict_get "type" fields = Some (JStr "chat") ->
  dict_get "text" fields = Some (JStr text) ->
  Str.strip (Str.take (N.to_nat MAX_MSG) text) = ("/msg " ++ tok)%string ->
  Str.lacks " " tok = true ->
  let calls :=
    [EvSend ws (System "Usage: /msg <user> <message>") (is_open s ws)]
    ++ fanout (Users (dict_keys (clients s))) None (closed s) (clients s) in
  on_incoming username ws (Json (JObj fields)) ts s
  = (Ok tt, mkWorld (clients s) (closed s) (log s ++ calls)) /\
  existsb is_chat_or_private calls = false.
Proof.
  intros Ht Hx Hs Hl calls. split.
  - rewrite (on_incoming_chat _ _ _ _ _ _ Ht Hx).
    rewrite (dispatch_handled _ _ _ _ _ _
               (handle_command_usage _ _ tok _ _ _ Hs Hl)).
    cbn [clients closed log]. unfold calls. now rewrite <- app_assoc.
  - unfold calls. cbn [app existsb is_chat_or_private orb].
    apply fanout_users_quiet.
Qed.

Lemma msg_usage_reply_witness :
  let s := mkWorld [("alice", 1); ("bob", 2)] [] [] in
  Str.strip (Str.take (N.to_nat MAX_MSG) "/msg bob") = ("/msg " ++ "bob")%string /\
  Str.lacks " " "bob" = true /\
  on_incoming "alice" 1 (chat_frame "/msg bob") "noon" s
  = (Ok tt,
     mkWorld (clients s) (closed s)
       (log s
        ++ [EvSend 1 (System "Usage: /msg <user> <message>") (is_open s 1)]
        ++ fanout (Users (dict_keys (clients s))) None (closed s) (clients s))).
Proof.
  intros s.
  assert (Hs : Str.strip (Str.take (N.to_nat MAX_MSG) "/msg bob")
               = ("/msg " ++ "bob")%string) by (vm_compute; reflexivity).
  split; [exact Hs|]. split; [reflexivity|].
  exact (proj1 (msg_usage_reply "alice" 1
                  [("type", JStr "chat"); ("text", JStr "/msg bob")]
                  "/msg bob" "bob" "noon" s eq_refl eq_refl Hs eq_refl)).
Defined.

(** C7 as stated fails on the code for its own example [/msg] alone: the
    text does not start with [/msg ], so it is no command; the sender gets
    no usage reply and the text is broadcast as a [Chat] packet.  And
    [/msg  bob], with two spaces, is split at each single space into
    three parts, so the reply is that the user with the empty name is
    not found. *)
Lemma msg_alone_is_broadcast :
  let s := mkWorld [("alice", 1); ("bob", 2)] [] [] in
  let s' := snd (on_incoming "alice" 1 (chat_frame "/msg") "noon" s) in
  log s' = [EvSend 1 (Chat "alice" "/msg" "noon") true;
            EvSend 2 (Chat "alice" "/msg" "noon") true] /\
  ~ (exists b, In (EvSend 1 (System "Usage: /msg <user> <message>") b) (log s')) /\
  log (snd (on_incoming "alice" 1 (chat_frame "/msg  bob") "noon" s))
  = [EvSend 1 (System "User '' not found.") true;
     EvSend 1 (Users ["alice"; "bob"]) true;
     EvSend 2 (Users ["alice"; "bob"]) true].
Proof.
  vm_compute. split; [reflexivity|]. split; [|reflexivity].
  intros [b [H|[H|[]]]]; discriminate.
Qed.

Lemma dict_del_In (k k' : string) (w : websocket) (d : dict websocket) :
  In (k', w) (dict_del k d) -> In (k', w) d.
Proof.
  induction d as [|[x v] d IH]; simpl; [tauto|].
  destruct (String.eqb x k); simpl; intuition.
Qed.

Lemma still_mine_registered (username : string) (ws : websocket)
    (d : dict websocket) :
  dict_get username d = Some ws -> still_mine username ws d = true.
Proof.
  intros H; unfold still_mine, dict_mem; rewrite H. now rewrite Nat.eqb_refl.
Qed.

(** C10 (stale users list after [/quit]).  For a user registered on [ws]
    whose text is [/quit] once truncated and trimmed, the loop iteration
    sends [Goodbye.], closes [ws], and then sends every registry entry a
    [Users] snapshot that still names the user; the registry is unchanged.
    Only the teardown that follows removes the entry, and then sends the
    remaining entries the leave notice and a snapshot without the user.
    So, for every remaining entry, the stale snapshot is sent to its
    websocket before the leave notice. *)
Theorem quit_leaves_stale_users (username : string) (ws : websocket)
    (fields : list (string * json)) (text ts : string) (s : world) :
  dict_get "type" fields = Some (JStr "chat") ->
  dict_get "text" fields = Some (JStr text) ->
  Str.strip (Str.take (N.to_nat MAX_MSG) text) = "/quit" ->
  dict_get username (clients s) = Some ws ->
  NoDup (dict_keys (clients s)) ->
  let shut := ws :: closed s in
  let stale := Users (dict_keys (clients s)) in
  let rest := dict_del username (clients s) in
  let left := System ("*** " ++ username ++ " left the chat ***") in
  let s1 := mkWorld (clients s) shut
              (log s
               ++ [EvSend ws (System "Goodbye.") (is_open s ws); EvClose ws]
               ++ fanout stale None shut (clients s)) in
  let s2 := mkWorld rest shut
              (log s1
               ++ fanout left None shut rest
               ++ fanout (Users (dict_keys rest)) None shut rest) in
  on_incoming username ws (Json (JObj fields)) ts s = (Ok tt, s1) /\
  In username (dict_keys (clients s)) /\
  teardown username ws s1 = (Ok tt, s2) /\
  ~ In username (dict_keys rest) /\
  forall user w, In (user, w) rest ->
    exists before between after,
      log s2 = log s
               ++ before ++ [EvSend w stale (is_open s1 w)]
               ++ between ++ [EvSend w left (is_open s1 w)]
               ++ after.
Proof.
  intros Ht Hx Hs Hg Hnd shut stale rest left s1 s2.
  assert (Hin : In username (dict_keys (clients s))).
  { apply dict_mem_In; unfold dict_mem; now rewrite Hg. }
  assert (E1 : on_incoming username ws (Json (JObj fields)) ts s = (Ok tt, s1)).
  { rewrite (on_incoming_chat _ _ _ _ _ _ Ht Hx).
    rewrite (dispatch_handled _ _ _ _ _ _
               (handle_command_quit _ _ _ _ _ Hs)).
    cbn [clients closed log]. unfold s1, stale, shut.
    now rewrite <- app_assoc. }
  assert (E2 : teardown username ws s1 = (Ok tt, s2)).
  { rewrite teardown_run. unfold without. cbn [clients closed log s1].
    now rewrite (still_mine_registered _ _ _ Hg). }
  split; [exact E1|]. split; [exact Hin|]. split; [exact E2|].
  split; [now apply dict_del_gone|].
  intros user w Hrest.
  pose proof (fanout_all stale shut (clients s) user w
                (dict_del_In _ _ _ _ Hrest)) as H1.
  pose proof (fanout_all left shut rest user w Hrest) as H2.
  apply in_split in H1 as (a1 & a2 & H1).
  apply in_split in H2 as (b1 & b2 & H2).
  exists ([EvSend ws (System "Goodbye.") (is_open s ws); EvClose ws] ++ a1),
         (a2 ++ b1),
         (b2 ++ fanout (Users (dict_keys rest)) None shut rest).
  cbn [log s2 s1]. unfold is_open; cbn [closed].
  fold shut. rewrite H1, H2.
  repeat (rewrite <- ?app_assoc; cbn [app]). reflexivity.
Qed.

Lemma quit_leaves_stale_users_witness :
  let s := mkWorld [("alice", 1); ("bob", 2)] [] [] in
  Str.strip (Str.take (N.to_nat MAX_MSG) " /quit ") = "/quit" /\
  dict_get "alice" (clients s) = Some 1 /\
  NoDup (dict_keys (clients s)) /\
  on_incoming "alice" 1 (chat_frame " /quit ") "noon" s
  = (Ok tt,
     mkWorld [("alice", 1); ("bob", 2)] [1]
       [EvSend 1 (System "Goodbye.") true; EvClose 1;
        EvSend 1 (Users ["alice"; "bob"]) false;
        EvSend 2 (Users ["alice"; "bob"]) true]).
Proof.
  intros s.
  assert (Hs : Str.strip (Str.take (N.to_nat MAX_MSG) " /quit ") = "/quit")
    by (vm_compute; reflexivity).
  assert (Hnd : NoDup (dict_keys (clients s))).
  { repeat constructor; simpl; intuition discriminate. }
  split; [exact Hs|]. split; [reflexivity|]. split; [exact Hnd|].
  exact (proj1 (quit_leaves_stale_users "alice" 1
                  [("type", JStr "chat"); ("text", JStr " /quit ")]
                  " /quit " "noon" s eq_refl eq_refl Hs eq_refl Hnd)).
Defined.

(* ===================================================================== *)
(** ** More on strings: lengths, idempotence, parsing *)
(* ===================================================================== *)

Lemma take_length (n : nat) (s : string) : String.length (Str.take n s) <= n.
Proof.
  revert s; induction n as [|n IH]; intros [|c s]; simpl; try lia.
  specialize (IH s); lia.
Qed.

Lemma lstrip_length (s : string) :
  String.length (Str.lstrip s) <= String.length s.
Proof.
  induction s as [|c s IH]; simpl; [lia|].
  destruct (Str.isspace c); simpl; lia.
Qed.

Lemma rstrip_length (s : string) :
  String.length (Str.rstrip s) <= String.length s.
Proof.
  induction s as [|c s IH]; simpl; [lia|].
  destruct (Str.rstrip s) eqn:E; [destruct (Str.isspace c)|]; simpl in *; lia.
Qed.

Lemma strip_length (s : string) :
  String.length (Str.strip s) <= String.length s.
Proof.
  unfold Str.strip.
  pose proof (rstrip_length (Str.lstrip s)); pose proof (lstrip_length s); lia.
Qed.

(** Every part that [split] returns is no longer than the string. *)
Lemma split_parts_length (sep : ascii) (n : nat) (s : string) :
  Forall (fun part => String.length part <= String.length s)
         (Str.split sep n s).
Proof.
  revert n; induction s as [|c s IH]; intros n; simpl.
  - constructor; [simpl; lia|constructor].
  - destruct n as [|n]; [constructor; [simpl; lia|constructor]|].
    destruct (Ascii.eqb c sep).
    + constructor; [simpl; lia|].
      eapply Forall_impl; [|apply IH]. simpl; intros; lia.
    + specialize (IH (S n)).
      destruct (Str.split sep (S n) s) as [|h t].
      * constructor; [simpl; lia|constructor].
      * inversion IH; subst. constructor; [simpl; lia|].
        eapply Forall_impl; [|eassumption]. simpl; intros; lia.
Qed.

Lemma lstrip_headed (s : string) : headed (Str.lstrip s).
Proof.
  induction s as [|c s IH]; simpl; [exact I|].
  destruct (Str.isspace c) eqn:E; [exact IH|exact E].
Qed.

Lemma lstrip_of_headed (s : string) : headed s -> Str.lstrip s = s.
Proof. destruct s as [|c s]; simpl; [reflexivity|]. now intros ->. Qed.

Lemma rstrip_headed (s : string) : headed s -> headed (Str.rstrip s).
Proof.
  destruct s as [|c s]; simpl; [auto|]. intros H.
  destruct (Str.rstrip s); [rewrite H|]; exact H.
Qed.

Lemma rstrip_idem (s : string) : Str.rstrip (Str.rstrip s) = Str.rstrip s.
Proof.
  induction s as [|c s IH]; simpl; [reflexivity|].
  destruct (Str.rstrip s) as [|c' r] eqn:E.
  - destruct (Str.isspace c) eqn:Ec; simpl; [reflexivity|now rewrite Ec].
  - change (Str.rstrip (String c (String c' r))) with
      (match Str.rstrip (String c' r) with
       | EmptyString => if Str.isspace c then EmptyString
                        else String c EmptyString
       | r' => String c r'
       end).
    now rewrite IH.
Qed.

Lemma strip_idem (s : string) : Str.strip (Str.strip s) = Str.strip s.
Proof.
  unfold Str.strip.
  rewrite (lstrip_of_headed (Str.rstrip (Str.lstrip s)))
    by (apply rstrip_headed, lstrip_headed).
  apply rstrip_idem.
Qed.

Lemma startswith_inv (s p : string) :
  Str.startswith s p = true -> exists r, s = (p ++ r)%string.
Proof.
  revert s; induction p as [|b p IH]; intros s; simpl.
  - intros _; now exists s.
  - destruct s as [|a s]; [discriminate|].
    intros H; apply andb_true_iff in H as [Hab Hs].
    apply Ascii.eqb_eq in Hab; subst b.
    destruct (IH s Hs) as [r ->]. now exists r.
Qed.

(** A string with the separator splits at its first occurrence. *)
Lemma first_sep (sep : ascii) (s : string) :
  Str.lacks sep s = false ->
  exists a b, s = (a ++ String sep b)%string /\ Str.lacks sep a = true.
Proof.
  induction s as [|c s IH]; simpl; [discriminate|].
  destruct (Ascii.eqb_spec c sep) as [->|Hne]; simpl.
  - intros _; exists EmptyString, s; auto.
  - intros H; destruct (IH H) as (a & b & -> & Ha).
    exists (String c a), b; split; [reflexivity|].
    simpl. rewrite Ha, andb_true_r.
    now apply negb_true_iff, Ascii.eqb_neq.
Qed.

(* ===================================================================== *)
(** ** The shape of every loop iteration *)
(* ===================================================================== *)

Lemma fanout_In_inv (p : packet) (ex : option string) (shut : list websocket)
    (d : dict websocket) (e : event) :
  In e (fanout p ex shut d) ->
  exists user w, In (user, w) d /\ is_excluded user ex = false /\
                 e = EvSend w p (negb (existsb (Nat.eqb w) shut)).
Proof.
  unfold fanout; intros H. apply in_map_iff in H as ([user w] & <- & Hin).
  apply filter_In in Hin as [Hin Hex]. apply negb_true_iff in Hex.
  now exists user, w.
Qed.

(** An iteration raises on a harmful frame and changes nothing; it answers
    a frame that is no chat packet with one [System] reply; it hands the
    truncated text of a chat packet to the dispatcher. *)
Lemma on_incoming_shape (username : string) (ws : websocket)
    (incoming : frame) (ts : string) (s : world) :
  (harmless incoming = false /\
   exists e, on_incoming username ws incoming ts s = (Raise e, s) /\
             (e = AttributeError \/ e = TypeError))
  \/ (harmless incoming = true /\
      exists m, (m = "Malformed packet (expecting JSON)."
                 \/ m = "Unknown packet type.") /\
        on_incoming username ws incoming ts s
        = (Ok tt, mkWorld (clients s) (closed s)
                    (log s ++ [EvSend ws (System m) (is_open s ws)])))
  \/ (harmless incoming = true /\
      exists fields text,
        incoming = Json (JObj fields) /\
        dict_get "type" fields = Some (JStr "chat") /\
        dict_get "text" fields = Some (JStr text) /\
        on_incoming username ws incoming ts s
        = dispatch username ws (Str.take (N.to_nat MAX_MSG) text) ts s).
Proof.
  destruct incoming as [|pkt].
  { right; left; split; [reflexivity|]. eexists; split; [left; reflexivity|].
    unfold on_incoming; run_coro; now rewrite send_json_run. }
  destruct pkt as [ |b|n|x|items|fields];
    try (left; split; [reflexivity|]; exists AttributeError;
         split; [unfold on_incoming; run_coro; reflexivity|now left]).
  cbn [harmless].
  destruct (dict_get "type" fields) as [t|] eqn:Ht.
  2:{ right; left; split; [reflexivity|].
      eexists; split; [right; reflexivity|].
      unfold on_incoming; run_coro; rewrite Ht.
      cbn [json_is_str negb]; run_coro; now rewrite send_json_run. }
  destruct (json_is_str t "chat") eqn:Et.
  2:{ right; left; split; [reflexivity|].
      eexists; split; [right; reflexivity|].
      unfold on_incoming; run_coro; rewrite Ht, Et.
      cbn [negb]; run_coro; now rewrite send_json_run. }
  apply json_is_str_true in Et; subst t.
  destruct (dict_get "text" fields) as [v|] eqn:Hx.
  2:{ right; left; split; [reflexivity|].
      eexists; split; [right; reflexivity|].
      unfold on_incoming; run_coro; rewrite Ht.
      change (negb (json_is_str (JStr "chat") "chat")) with false. cbv iota.
      run_coro. unfold dict_mem; rewrite Hx. cbn [negb].
      now rewrite send_json_run. }
  assert (Hrun :
            on_incoming username ws (Json (JObj fields)) ts s
            = bind (py_slice_to (N.to_nat MAX_MSG) v)
                (fun sliced =>
                   match sliced with
                   | JStr text =>
                       handled <- handle_command username text ws ts ;;
                       if handled then
                         d <- get_clients ;;
                         broadcast_packet (Users (dict_keys d)) None
                       else broadcast_packet (Chat username text ts) None
                   | _ => raise AttributeError
                   end) s).
  { unfold on_incoming; run_coro; rewrite Ht.
    change (negb (json_is_str (JStr "chat") "chat")) with false. cbv iota.
    run_coro. unfold dict_mem; rewrite Hx. cbn [negb].
    now rewrite (bind_py_item_some _ _ _ _ _ Hx). }
  destruct v as [ |b|n|text|items|fs];
    try (left; split; [reflexivity|]; exists TypeError;
         split; [rewrite Hrun; reflexivity|now right]).
  - right; right; split; [reflexivity|]. exists fields, text.
    split; [reflexivity|]. split; [exact Ht|]. split; [exact Hx|].
    now apply on_incoming_chat.
  - left; split; [reflexivity|]. exists AttributeError.
    split; [rewrite Hrun; reflexivity|now left].
Qed.

Lemma handle_command_log (username text : string) (ws : websocket)
    (ts : string) (s : world) :
  exists handled shut calls,
    handle_command username text ws ts s
    = (Ok handled, mkWorld (clients s) shut (log s ++ calls)) /\
    (shut = closed s \/ shut = ws :: closed s) /\
    (handled = false -> calls = [] /\ shut = closed s) /\
    Forall (command_call username text ts ws (clients s)) calls.
Proof.
  unfold handle_command.
  destruct (String.eqb (Str.strip text) "/users").
  { run_coro. unfold ret. do 3 eexists. split; [reflexivity|].
    split; [now left|]. split; [discriminate|].
    repeat constructor. }
  destruct (Str.startswith (Str.strip text) "/msg ").
  { destruct (Nat.ltb _ 3) eqn:Hlen.
    - run_coro. unfold ret. do 3 eexists. split; [reflexivity|].
      split; [now left|]. split; [discriminate|]. repeat constructor.
    - run_coro.
      destruct (dict_get _ (clients s)) as [target|] eqn:Hg; run_coro;
        unfold ret.
      + exists true, (closed s). eexists. split.
        { rewrite <- app_assoc. reflexivity. }
        split; [now left|]. split; [discriminate|].
        constructor; [|repeat constructor].
        cbn [command_call]. repeat split.
        * apply Nat.ltb_ge in Hlen.
          pose proof (split_parts_length " " 2 (Str.strip text)) as Hall.
          rewrite Forall_forall in Hall.
          specialize (Hall _ (nth_In _ "" Hlen)).
          pose proof (strip_length text). lia.
        * eexists; exact Hg.
      + do 3 eexists. split; [reflexivity|].
        split; [now left|]. split; [discriminate|]. repeat constructor. }
  destruct (String.eqb (Str.strip text) "/quit").
  { run_coro. unfold ret. exists true, (ws :: closed s). eexists. split.
    { rewrite <- app_assoc. reflexivity. }
    split; [now right|]. split; [discriminate|]. repeat constructor. }
  unfold ret. exists false, (closed s), []. rewrite app_nil_r.
  destruct s; cbn [clients closed log].
  split; [reflexivity|]. split; [now left|]. split; [now split|constructor].
Qed.

Lemma dict_get_In {V : Type} (k : string) (v : V) (d : dict V) :
  dict_get k d = Some v -> In (k, v) d.
Proof.
  induction d as [|[k' v'] d IH]; simpl; [discriminate|].
  destruct (String.eqb_spec k' k) as [->|_].
  - intros H; injection H as ->; now left.
  - intros H; right; auto.
Qed.

(** Leaving one registered name out of a duplicate-free registry leaves
    out exactly one entry. *)
Lemma filter_excluded_length (u : string) (d : dict websocket) :
  NoDup (dict_keys d) -> In u (dict_keys d) ->
  List.length
    (filter (fun '(user, _) => negb (is_excluded user (Some u))) d) + 1
  = List.length d.
Proof.
  set (keep := fun '((user, _) : string * websocket) =>
                 negb (is_excluded user (Some u))).
  assert (Hall : forall d' : dict websocket,
            ~ In u (dict_keys d') -> filter keep d' = d').
  { induction d' as [|[k' w'] d' IH]; [reflexivity|].
    cbn [filter keep is_excluded dict_keys map fst In]. intros Hn.
    destruct (String.eqb_spec k' u) as [->|_]; [tauto|].
    cbn [negb]. f_equal. apply IH. unfold dict_keys. tauto. }
  induction d as [|[k w] d IH]; [simpl; tauto|].
  cbn [filter dict_keys map fst In List.length].
  intros Hnd Hin; inversion Hnd as [|? ? Hk Hd]; subst.
  change (keep (k, w)) with (negb (String.eqb k u)).
  destruct (String.eqb_spec k u) as [->|Hne]; cbn [negb].
  - rewrite (Hall d Hk). lia.
  - destruct Hin as [E|Hin]; [congruence|].
    cbn [List.length]. specialize (IH Hd Hin). lia.
Qed.

Lemma dispatch_ok (username : string) (ws : websocket) (text ts : string)
    (s : world) :
  fst (dispatch username ws text ts s) = Ok tt.
Proof.
  unfold dispatch.
  destruct (handle_command_returns username text ws ts s)
    as (handled & s1 & E & _).
  unfold bind at 1; rewrite E.
  destruct handled; run_coro; now rewrite broadcast_packet_run.
Qed.

(* ===================================================================== *)
(** ** Further properties of the server *)
(* ===================================================================== *)

(** X1.  [broadcast_packet] never raises and never changes the registry
    or the connections: it makes one send per registry entry that is not
    the excluded name, in registry order.  With nobody excluded that is
    one send per entry; with a registered name excluded, in a registry
    without duplicates, it is one send fewer. *)
Theorem broadcast_reaches_all_but_excluded (p : packet)
    (ex : option string) (s : world) :
  let sends :=
    map (fun '(_, w) => EvSend w p (is_open s w))
        (filter (fun '(user, _) => negb (is_excluded user ex)) (clients s)) in
  broadcast_packet p ex s
  = (Ok tt, mkWorld (clients s) (closed s) (log s ++ sends)) /\
  (ex = None -> List.length sends = List.length (clients s)) /\
  (forall u, ex = Some u -> NoDup (dict_keys (clients s)) ->
             In u (dict_keys (clients s)) ->
             List.length sends + 1 = List.length (clients s)).
Proof.
  intros sends. split; [apply broadcast_packet_run|]. split.
  - intros ->. unfold sends. rewrite length_map. cbn [is_excluded negb].
    f_equal. induction (clients s) as [|[k w] d IH]; [reflexivity|].
    simpl. now rewrite IH.
  - intros u -> Hnd Hin. unfold sends. rewrite length_map.
    now apply filter_excluded_length.
Qed.

Lemma broadcast_reaches_all_but_excluded_witness :
  let s := mkWorld [("alice", 1); ("bob", 2); ("carol", 3)] [2] [] in
  NoDup (dict_keys (clients s)) /\ In "bob" (dict_keys (clients s)) /\
  broadcast_packet (System "hi") (Some "bob") s
  = (Ok tt, mkWorld (clients s) (closed s)
              [EvSend 1 (System "hi") true; EvSend 3 (System "hi") true]) /\
  2 + 1 = List.length (clients s).
Proof.
  intros s.
  assert (Hnd : NoDup (dict_keys (clients s)))
    by (repeat constructor; simpl; intuition discriminate).
  assert (Hin : In "bob" (dict_keys (clients s))) by (simpl; auto).
  destruct (broadcast_reaches_all_but_excluded (System "hi") (Some "bob") s)
    as (Hrun & _ & Hcount).
  split; [exact Hnd|]. split; [exact Hin|]. split; [exact Hrun|].
  exact (Hcount "bob" eq_refl Hnd Hin).
Defined.

(** X2.  A chat text that passes none of the three command tests is
    broadcast as one [Chat] packet from the sender to every registry
    entry, the sender's own included, with the text as received (not
    trimmed) but cut to [MAX_MSG] characters; nothing else is sent and
    nothing changes. *)
Theorem plain_chat_is_broadcast (username : string) (ws : websocket)
    (fields : list (string * json)) (text ts : string) (s : world) :
  dict_get "type" fields = Some (JStr "chat") ->
  dict_get "text" fields = Some (JStr text) ->
  String.eqb (Str.strip (Str.take (N.to_nat MAX_MSG) text)) "/users"
  || Str.startswith (Str.strip (Str.take (N.to_nat MAX_MSG) text)) "/msg "
  || String.eqb (Str.strip (Str.take (N.to_nat MAX_MSG) text)) "/quit"
  = false ->
  let out := Chat username (Str.take (N.to_nat MAX_MSG) text) ts in
  on_incoming username ws (Json (JObj fields)) ts s
  = (Ok tt, mkWorld (clients s) (closed s)
              (log s ++ fanout out None (closed s) (clients s))) /\
  forall w, dict_get username (clients s) = Some w ->
    In (EvSend w out (is_open s w)) (fanout out None (closed s) (clients s)).
Proof.
  intros Ht Hx Hcmd out. split.
  - rewrite (on_incoming_chat _ _ _ _ _ _ Ht Hx).
    destruct (handle_command_log username
                (Str.take (N.to_nat MAX_MSG) text) ws ts s)
      as (handled & shut & calls & E & _ & Hnil & _).
    pose proof (handle_command_handled username
                  (Str.take (N.to_nat MAX_MSG) text) ws ts s) as Hh.
    rewrite E, Hcmd in Hh; cbn [fst] in Hh; injection Hh as ->.
    destruct (Hnil eq_refl) as [-> ->]. rewrite app_nil_r in E.
    unfold dispatch, bind at 1. rewrite E.
    rewrite broadcast_packet_run. reflexivity.
  - intros w Hw. apply (fanout_all _ _ _ username). now apply dict_get_In.
Qed.

Lemma plain_chat_is_broadcast_witness :
  let s := mkWorld [("alice", 1); ("bob", 2)] [] [] in
  String.eqb (Str.strip (Str.take (N.to_nat MAX_MSG) " hello /users ")) "/users"
  || Str.startswith (Str.strip (Str.take (N.to_nat MAX_MSG) " hello /users "))
       "/msg "
  || String.eqb (Str.strip (Str.take (N.to_nat MAX_MSG) " hello /users ")) "/quit"
  = false /\
  on_incoming "alice" 1 (chat_frame " hello /users ") "noon" s
  = (Ok tt, mkWorld (clients s) (closed s)
              [EvSend 1 (Chat "alice" " hello /users " "noon") true;
               EvSend 2 (Chat "alice" " hello /users " "noon") true]).
Proof.
  intros s.
  assert (Hc : String.eqb (Str.strip (Str.take (N.to_nat MAX_MSG)
                                        " hello /users ")) "/users"
               || Str.startswith (Str.strip (Str.take (N.to_nat MAX_MSG)
                                               " hello /users ")) "/msg "
               || String.eqb (Str.strip (Str.take (N.to_nat MAX_MSG)
                                           " hello /users ")) "/quit"
               = false) by (vm_compute; reflexivity).
  split; [exact Hc|].
  exact (proj1 (plain_chat_is_broadcast "alice" 1
                  [("type", JStr "chat"); ("text", JStr " hello /users ")]
                  " hello /users " "noon" s eq_refl eq_refl Hc)).
Defined.

(** X3.  Whatever frame arrives, every [Chat] and every [Private] packet
    that the loop iteration sends carries a text of at most [MAX_MSG]
    characters. *)
Theorem relayed_text_is_bounded (username : string) (ws : websocket)
    (incoming : frame) (ts : string) (s : world) (e : event) (t : string) :
  In e (log (snd (on_incoming username ws incoming ts s))) ->
  carried_text e = Some t ->
  In e (log s) \/ String.length t <= N.to_nat MAX_MSG.
Proof.
  intros Hin Ht.
  destruct (on_incoming_shape username ws incoming ts s)
    as [(_ & x & E & _)|[(_ & m & _ & E)|(_ & fields & text & _ & _ & _ & E)]].
  - rewrite E in Hin. now left.
  - rewrite E in Hin. cbn [snd log] in Hin.
    apply in_app_or in Hin as [Hin|[<-|[]]]; [now left|discriminate].
  - rewrite E in Hin. clear E. unfold dispatch in Hin.
    destruct (handle_command_log username
                (Str.take (N.to_nat MAX_MSG) text) ws ts s)
      as (handled & shut & calls & E & _ & _ & Hcalls).
    unfold bind at 1 in Hin. rewrite E in Hin.
    pose proof (take_length (N.to_nat MAX_MSG) text) as Hlen.
    assert (Hcmd : In e calls -> String.length t <= N.to_nat MAX_MSG).
    { intros Hc. rewrite Forall_forall in Hcalls. specialize (Hcalls e Hc).
      destruct e as [w p b|w]; [|discriminate].
      destruct p as [ |r|f x t'|f x t'|m|us]; try discriminate;
        cbn [carried_text] in Ht; injection Ht as Ht; subst x;
        cbn [command_call is_reply] in Hcalls.
      - destruct Hcalls; discriminate.
      - destruct Hcalls as (_ & _ & Hm & _). lia. }
    destruct handled; run_coro_in Hin;
      rewrite broadcast_packet_run in Hin; cbn [snd clients closed log] in Hin;
      apply in_app_or in Hin as [Hin|Hin];
      try (apply in_app_or in Hin as [Hin|Hin]; [now left|right; auto]).
    + apply fanout_In_inv in Hin as (u' & w' & _ & _ & He). subst e.
      discriminate.
    + apply fanout_In_inv in Hin as (u' & w' & _ & _ & He). subst e.
      cbn [carried_text] in Ht. injection Ht as <-. right; exact Hlen.
Qed.

Lemma relayed_text_is_bounded_witness :
  let long := string_of_list_ascii (repeat "a"%char (N.to_nat 10005)) in
  let s := mkWorld [("alice", 1); ("bob", 2)] [] [] in
  let e := EvSend 2 (Chat "alice" (Str.take (N.to_nat MAX_MSG) long) "noon")
             true in
  In e (log (snd (on_incoming "alice" 1 (chat_frame long) "noon" s))) /\
  String.length (Str.take (N.to_nat MAX_MSG) long) <= N.to_nat MAX_MSG.
Proof.
  intros long s e.
  assert (Hin : In e (log (snd (on_incoming "alice" 1 (chat_frame long)
                                  "noon" s))))
    by (vm_compute; right; left; reflexivity).
  split; [exact Hin|].
  destruct (relayed_text_is_bounded "alice" 1 (chat_frame long) "noon" s e
              (Str.take (N.to_nat MAX_MSG) long) Hin eq_refl) as [[]|H].
  exact H.
Defined.



(** [/msg <user> <message>] to a name that is not registered. *)
Lemma handle_command_not_found (username text target message : string)
    (ws : websocket) (ts : string) (s : world) :
  Str.strip text = ("/msg " ++ target ++ " " ++ message)%string ->
  Str.lacks " " target = true ->
  dict_get target (clients s) = None ->
  handle_command username text ws ts s
  = (Ok true,
     mkWorld (clients s) (closed s)
       (log s ++ [EvSend ws (System ("User '" ++ target ++ "' not found."))
                    (is_open s ws)])).
Proof.
  intros Hs Hl Hg. unfold handle_command. rewrite Hs.
  change (String.eqb ("/msg " ++ target ++ " " ++ message) "/users")
    with false. cbv iota.
  rewrite startswith_app.
  change ("/msg " ++ target ++ " " ++ message)%string
    with ("/msg" ++ String " " (target ++ String " " message))%string.
  rewrite split_token by reflexivity.
  rewrite (split_token _ _ _ _ Hl), split_zero.
  cbn [List.length Nat.ltb Nat.leb nth]. run_coro. rewrite Hg. run_coro.
  reflexivity.
Qed.

(** X5.  How [/msg] reads its text.  A trimmed text that starts with
    [/msg ] is either [/msg ] and one token without a space, which gets
    the usage reply, or it is [/msg ], a target without a space, one
    space and a message taken as it is (spaces included); then the target
    is looked up: registered, it gets the [Private] packet and the sender
    the acknowledgment; not registered, the sender is told so and no
    [Private] packet is sent. *)
Theorem msg_command_reads_target_and_message (username text : string)
    (ws : websocket) (ts : string) (s : world) :
  Str.startswith (Str.strip text) "/msg " = true ->
  (exists tok,
      Str.strip text = ("/msg " ++ tok)%string /\ Str.lacks " " tok = true /\
      handle_command username text ws ts s
      = (Ok true,
         mkWorld (clients s) (closed s)
           (log s ++ [EvSend ws (System "Usage: /msg <user> <message>")
                        (is_open s ws)])))
  \/ (exists target message,
         Str.strip text = ("/msg " ++ target ++ " " ++ message)%string /\
         Str.lacks " " target = true /\
         handle_command username text ws ts s
         = (Ok true,
            mkWorld (clients s) (closed s)
              (log s ++
               match dict_get target (clients s) with
               | Some wt =>
                   [EvSend wt (Private username message ts) (is_open s wt);
                    EvSend ws (System "Private message sent.") (is_open s ws)]
               | None =>
                   [EvSend ws (System ("User '" ++ target ++ "' not found."))
                      (is_open s ws)]
               end))).
Proof.
  intros H. apply startswith_inv in H as [rest Hs].
  destruct (Str.lacks " " rest) eqn:Hl.
  - left. exists rest. split; [exact Hs|]. split; [exact Hl|].
    now apply handle_command_usage with (tok := rest).
  - right. apply first_sep in Hl as (target & message & -> & Hl).
    exists target, message. split; [exact Hs|]. split; [exact Hl|].
    destruct (dict_get target (clients s)) as [wt|] eqn:Hg.
    + now apply handle_command_private with (target := target).
    + now apply handle_command_not_found with (message := message).
Qed.

Lemma msg_command_reads_target_and_message_witness :
  let s := mkWorld [("alice", 1); ("bob", 2)] [] [] in
  Str.startswith (Str.strip "  /msg dave  are you there? ") "/msg " = true /\
  handle_command "alice" "  /msg dave  are you there? " 1 "noon" s
  = (Ok true,
     mkWorld (clients s) (closed s)
       [EvSend 1 (System "User 'dave' not found.") true]).
Proof.
  intros s.
  assert (H : Str.startswith (Str.strip "  /msg dave  are you there? ")
                "/msg " = true) by (vm_compute; reflexivity).
  split; [exact H|].
  destruct (msg_command_reads_target_and_message
              "alice" "  /msg dave  are you there? " 1 "noon" s H)
    as [(tok & _ & _ & E)|(target & message & _ & _ & E)].
  - exfalso. vm_compute in E. discriminate E.
  - vm_compute. reflexivity.
Defined.

(** X6.  Commands are recognised on the trimmed text: blanks before and
    after a command change nothing of what [handle_command] does. *)
Theorem command_ignores_surrounding_blanks (username text : string)
    (ws : websocket) (ts : string) (s : world) :
  handle_command username (Str.strip text) ws ts s
  = handle_command username text ws ts s.
Proof. unfold handle_command. now rewrite strip_idem. Qed.

Lemma step_keys_trimmed (s : world) (e : server_step) :
  Forall (fun k => Str.strip k = k) (dict_keys (clients s)) ->
  Forall (fun k => Str.strip k = k) (dict_keys (clients (step s e))).
Proof.
  intros H; destruct e as [ws first|username ws incoming ts|username ws|ws];
    cbn [step].
  - destruct (authenticate_cases ws first s)
      as [(fields & u & _ & _ & Hm & ->)|[-> _]]; [|exact H].
    cbn [snd joined clients]. rewrite dict_keys_set_new by exact Hm.
    apply Forall_app; split; [exact H|].
    constructor; [apply strip_idem|constructor].
  - now rewrite on_incoming_clients.
  - rewrite teardown_run; cbn [snd clients]; unfold without.
    destruct (still_mine _ _ _); [|exact H].
    rewrite Forall_forall in *. intros k Hk. apply H.
    eapply dict_keys_del_incl; eauto.
  - exact H.
Qed.

(** X7.  In every state the server reaches from the empty registry, each
    registered username is its own trimmed form: no key begins or ends
    with a blank. *)
Theorem registered_names_are_trimmed (es : list server_step) :
  Forall (fun k => Str.strip k = k) (dict_keys (clients (run es initial))).
Proof.
  assert (G : forall s,
             Forall (fun k => Str.strip k = k) (dict_keys (clients s)) ->
             Forall (fun k => Str.strip k = k)
                    (dict_keys (clients (run es s)))).
  { induction es as [|e es IH]; intros s H; [exact H|].
    cbn [run fold_left]. apply IH. now apply step_keys_trimmed. }
  apply G. constructor.
Qed.

(* ===================================================================== *)
(** ** Whole sessions *)
(* ===================================================================== *)

Lemma on_incoming_ok_iff (username : string) (ws : websocket)
    (incoming : frame) (ts : string) (s : world) :
  fst (on_incoming username ws incoming ts s) = Ok tt
  <-> harmless incoming = true.
Proof.
  destruct (on_incoming_shape username ws incoming ts s)
    as [(Hh & x & E & _)|[(Hh & m & _ & E)|(Hh & fields & text & _ & _ & _ & E)]];
    rewrite E, Hh.
  - split; discriminate.
  - split; reflexivity.
  - rewrite dispatch_ok. split; reflexivity.
Qed.

Lemma receive_loop_clients (username : string) (ws : websocket)
    (frames : list (frame * string)) (broken : bool) (s : world) :
  clients (snd (receive_loop username ws frames broken s)) = clients s.
Proof.
  revert s; induction frames as [|[incoming ts] rest IH]; intros s.
  - cbn [receive_loop]. destruct broken; reflexivity.
  - cbn [receive_loop]. unfold bind.
    pose proof (on_incoming_clients username ws incoming ts s) as Hc.
    destruct (on_incoming username ws incoming ts s) as [[[]|e] s1];
      cbn [snd] in *; [now rewrite IH|exact Hc].
Qed.

(** With harmless frames only, the loop ends as the stream ends. *)
Lemma receive_loop_harmless (username : string) (ws : websocket)
    (frames : list (frame * string)) (broken : bool) (s : world) :
  Forall (fun f => harmless (fst f) = true) frames ->
  fst (receive_loop username ws frames broken s)
  = if broken then Raise ConnectionClosed else Ok tt.
Proof.
  revert s; induction frames as [|[incoming ts] rest IH]; intros s H.
  - cbn [receive_loop]. destruct broken; reflexivity.
  - inversion H as [|? ? Hh Hrest]; subst. cbn [fst] in Hh.
    cbn [receive_loop]. unfold bind.
    apply (on_incoming_ok_iff username ws incoming ts s) in Hh.
    destruct (on_incoming username ws incoming ts s) as [[[]|e] s1];
      cbn [fst] in Hh; [now apply IH|discriminate].
Qed.

(** The loop stops at the first harmful frame: what follows is not read. *)
Lemma receive_loop_crash (username : string) (ws : websocket)
    (pre post : list (frame * string)) (bad : frame) (ts : string)
    (broken : bool) (s : world) :
  Forall (fun f => harmless (fst f) = true) pre ->
  harmless bad = false ->
  receive_loop username ws (pre ++ (bad, ts) :: post) broken s
  = receive_loop username ws (pre ++ [(bad, ts)]) false s /\
  exists e, fst (receive_loop username ws (pre ++ [(bad, ts)]) false s)
            = Raise e /\ (e = AttributeError \/ e = TypeError).
Proof.
  revert s; induction pre as [|[incoming t0] pre IH]; intros s Hpre Hbad.
  - cbn [app receive_loop]. unfold bind.
    destruct (on_incoming_shape username ws bad ts s)
      as [(_ & x & E & Hx)|[(Hh & _)|(Hh & _)]]; try congruence.
    rewrite E. split; [reflexivity|]. now exists x.
  - inversion Hpre as [|? ? Hh Hrest]; subst. cbn [fst] in Hh.
    cbn [app receive_loop]. unfold bind.
    apply (on_incoming_ok_iff username ws incoming t0 s) in Hh.
    destruct (on_incoming username ws incoming t0 s) as [[[]|e] s1];
      cbn [fst] in Hh; [now apply IH|discriminate].
Qed.

Lemma still_mine_last (username : string) (ws : websocket)
    (d : dict websocket) :
  ~ In username (dict_keys d) ->
  still_mine username ws (d ++ [(username, ws)]) = true /\
  dict_del username (d ++ [(username, ws)]) = d.
Proof.
  unfold still_mine, dict_mem.
  induction d as [|[k w] d IH]; cbn [app dict_get dict_del dict_keys map fst In].
  - intros _. now rewrite String.eqb_refl, Nat.eqb_refl.
  - intros Hn. destruct (String.eqb_spec k username) as [->|_]; [tauto|].
    destruct IH as [IH1 IH2]; [unfold dict_keys; tauto|].
    split; [exact IH1|now rewrite IH2].
Qed.

(** The session of a user who joined on [ws], from the loop to the end of
    the [finally] block. *)
Lemma session_run (username : string) (ws : websocket)
    (frames : list (frame * string)) (broken : bool) (s0 s : world) :
  ~ In username (dict_keys (clients s0)) ->
  clients s = clients s0 ++ [(username, ws)] ->
  let out :=
    try_finally
      (try_except_on is_ConnectionClosed
         (receive_loop username ws frames broken) (ret tt))
      (teardown username ws) s in
  clients (snd out) = clients s0 /\
  fst out
  = match fst (receive_loop username ws frames broken s) with
    | Raise ConnectionClosed => Ok tt
    | r => r
    end.
Proof.
  intros Hn Hc out. unfold out, try_finally, try_except_on.
  pose proof (receive_loop_clients username ws frames broken s) as Hl.
  destruct (receive_loop username ws frames broken s) as [[[]|e] s1];
    cbn [snd fst] in *.
  - rewrite teardown_run. cbn [fst snd clients]. unfold without.
    rewrite Hl, Hc. destruct (still_mine_last username ws _ Hn) as [-> ->].
    now split.
  - destruct (is_ConnectionClosed e) eqn:He.
    + unfold ret. rewrite teardown_run. cbn [fst snd clients]. unfold without.
      rewrite Hl, Hc. destruct (still_mine_last username ws _ Hn) as [-> ->].
      destruct e; try discriminate. now split.
    + rewrite teardown_run. cbn [fst snd clients]. unfold without.
      rewrite Hl, Hc. destruct (still_mine_last username ws _ Hn) as [-> ->].
      destruct e; try discriminate; now split.
Qed.

(** X8.  A handler never leaks a registration: whatever the first receive
    gives, whatever frames follow and however the stream ends (clean end,
    [ConnectionClosed], or a frame that makes the loop raise), the
    registry after the whole coroutine is the registry before it. *)
Theorem handler_restores_registry (ws : websocket) (first : first_recv)
    (frames : list (frame * string)) (broken : bool) (s : world) :
  clients (snd (handler ws first frames broken s)) = clients s.
Proof.
  unfold handler, bind.
  destruct (authenticate_cases ws first s)
    as [(fields & u & _ & _ & Hm & E)|[Hc Hno]].
  - rewrite E.
    apply (session_run (Str.strip u) ws frames broken s).
    + now apply dict_mem_false.
    + cbn [joined clients]. now apply dict_set_new.
  - destruct (authenticate ws first s) as [[[username|]|e] s1];
      cbn [fst snd] in *; [|exact Hc|exact Hc].
    exfalso. now apply (Hno username).
Qed.

(** X9.  Exactly the harmful frames end a session: an iteration of the
    loop returns normally if and only if the frame is not JSON, or is a
    decoded object that is not a chat packet with a [text] that is no
    string; on every other frame it raises [AttributeError] or
    [TypeError] before anything is sent or changed. *)
Theorem iteration_raises_exactly_on_harmful_frames (username : string)
    (ws : websocket) (incoming : frame) (ts : string) (s : world) :
  (fst (on_incoming username ws incoming ts s) = Ok tt
   <-> harmless incoming = true) /\
  (harmless incoming = false ->
   exists e, on_incoming username ws incoming ts s = (Raise e, s) /\
             (e = AttributeError \/ e = TypeError)).
Proof.
  split; [apply on_incoming_ok_iff|].
  intros Hh.
  destruct (on_incoming_shape username ws incoming ts s)
    as [(_ & x & E & Hx)|[(Hh' & _)|(Hh' & _)]]; try congruence.
  now exists x.
Qed.

Lemma iteration_raises_exactly_on_harmful_frames_witness :
  let s := mkWorld [("alice", 1)] [] [] in
  harmless (Json (JArr [JStr "chat"])) = false /\
  exists e, on_incoming "alice" 1 (Json (JArr [JStr "chat"])) "noon" s
            = (Raise e, s) /\ (e = AttributeError \/ e = TypeError).
Proof.
  intros s. split; [reflexivity|].
  exact (proj2 (iteration_raises_exactly_on_harmful_frames
                  "alice" 1 (Json (JArr [JStr "chat"])) "noon" s) eq_refl).
Defined.

(** X10.  For a user who joins with a well-formed auth message, the
    handler returns normally when every frame is harmless, also when the
    stream ends with [ConnectionClosed], which the handler absorbs; and
    when a harmful frame arrives the handler ends with [AttributeError]
    or [TypeError] exactly as if the stream had stopped there: frames
    after the harmful one are never read. *)
Theorem handler_ends_with_the_stream (ws : websocket)
    (fields : list (string * json)) (u : string)
    (pre post : list (frame * string)) (bad : frame) (ts : string)
    (broken : bool) (s : world) :
  presents fields u CHAT_PASSWORD ->
  ~ In (Str.strip u) (dict_keys (clients s)) ->
  Forall (fun f => harmless (fst f) = true) pre ->
  harmless bad = false ->
  fst (handler ws (Received (Json (JObj fields))) pre broken s) = Ok tt /\
  handler ws (Received (Json (JObj fields))) (pre ++ (bad, ts) :: post) broken s
  = handler ws (Received (Json (JObj fields))) (pre ++ [(bad, ts)]) false s /\
  exists e,
    fst (handler ws (Received (Json (JObj fields))) (pre ++ [(bad, ts)]) false s)
    = Raise e /\ (e = AttributeError \/ e = TypeError).
Proof.
  intros Hp Hn Hpre Hbad.
  apply dict_mem_false in Hn.
  unfold handler, bind.
  rewrite (authenticate_presented ws fields u s Hp), Hn.
  assert (Hc : clients (joined (Str.strip u) ws s)
               = clients s ++ [(Str.strip u, ws)])
    by (cbn [joined clients]; now apply dict_set_new).
  apply dict_mem_false in Hn.
  split; [|split].
  - rewrite (proj2 (session_run _ ws pre broken s _ Hn Hc)).
    rewrite (receive_loop_harmless _ _ _ _ _ Hpre). now destruct broken.
  - unfold try_finally, try_except_on.
    now rewrite (proj1 (receive_loop_crash _ ws pre post bad ts broken _
                          Hpre Hbad)).
  - destruct (receive_loop_crash (Str.strip u) ws pre post bad ts broken
                (joined (Str.strip u) ws s) Hpre Hbad) as (_ & e & He & Hk).
    exists e. split; [|exact Hk].
    rewrite (proj2 (session_run _ ws (pre ++ [(bad, ts)]) false s _ Hn Hc)).
    rewrite He. destruct Hk as [-> | ->]; reflexivity.
Qed.

Lemma handler_ends_with_the_stream_witness :
  let s := mkWorld [("alice", 1)] [] [] in
  let fields := [("type", JStr "auth"); ("username", JStr "bob");
                 ("password", JStr CHAT_PASSWORD)] in
  let pre := [(chat_frame "hi", "noon"); (NotJson, "noon")] in
  let bad := Json (JObj [("type", JStr "chat"); ("text", JNull)]) in
  presents fields "bob" CHAT_PASSWORD /\
  ~ In (Str.strip "bob") (dict_keys (clients s)) /\
  Forall (fun f => harmless (fst f) = true) pre /\
  harmless bad = false /\
  fst (handler 2 (Received (Json (JObj fields))) pre true s) = Ok tt /\
  handler 2 (Received (Json (JObj fields)))
    (pre ++ (bad, "noon") :: [(chat_frame "/quit", "noon")]) true s
  = handler 2 (Received (Json (JObj fields))) (pre ++ [(bad, "noon")]) false s.
Proof.
  intros s fields pre bad.
  assert (Hp : presents fields "bob" CHAT_PASSWORD)
    by (repeat split; discriminate).
  assert (Hn : ~ In (Str.strip "bob") (dict_keys (clients s)))
    by (vm_compute; intros [H|[]]; discriminate).
  assert (Hpre : Forall (fun f => harmless (fst f) = true) pre)
    by (repeat constructor).
  destruct (handler_ends_with_the_stream 2 fields "bob" pre
              [(chat_frame "/quit", "noon")] bad "noon" true s
              Hp Hn Hpre eq_refl) as (H1 & H2 & _).
  split; [exact Hp|]. split; [exact Hn|]. split; [exact Hpre|].
  split; [reflexivity|]. split; [exact H1|exact H2].
Defined.

(* ===================================================================== *)
(** ** Every outcome of the authentication phase *)
(* ===================================================================== *)

(** The phase joins, or turns the connection away with one of the five
    reasons, or raises before it has sent anything. *)
Lemma authenticate_outcomes (ws : websocket) (first : first_recv) (s : world) :
  (exists username,
      authenticate ws first s = (Ok (Some username), joined username ws s))
  \/ (exists reason,
         In reason auth_fail_reasons /\
         authenticate ws first s = reject ws reason s)
  \/ (exists e, authenticate ws first s = (Raise e, s) /\
                (e = ConnectionClosed \/ e = AttributeError)).
Proof.
  remember (authenticate ws first s) as out eqn:E0.
  pose proof E0 as E.
  assert (Hrej : forall reason, In reason auth_fail_reasons ->
    out = reject ws reason s ->
    (exists username, out = (Ok (Some username), joined username ws s))
    \/ (exists r, In r auth_fail_reasons /\ out = reject ws r s)
    \/ (exists e, out = (Raise e, s) /\
                  (e = ConnectionClosed \/ e = AttributeError)))
    by (intros r Hr ->; right; left; now exists r).
  assert (Hraise : forall e, e = ConnectionClosed \/ e = AttributeError ->
    out = (Raise e, s) ->
    (exists username, out = (Ok (Some username), joined username ws s))
    \/ (exists r, In r auth_fail_reasons /\ out = reject ws r s)
    \/ (exists e, out = (Raise e, s) /\
                  (e = ConnectionClosed \/ e = AttributeError)))
    by (intros e He ->; right; right; now exists e).
  assert (R1 : In "No auth received" auth_fail_reasons) by (simpl; auto).
  assert (R2 : In "Malformed auth" auth_fail_reasons) by (simpl; auto).
  assert (R3 : In "Auth required" auth_fail_reasons) by (simpl; auto).
  assert (R4 : In "Wrong password" auth_fail_reasons) by (simpl; auto).
  assert (R5 : In "Username already taken" auth_fail_reasons)
    by (simpl; auto 6).
  destruct first as [| |[|auth]]; cbn [authenticate] in E; run_coro_in E.
  - exact (Hrej _ R1 E).
  - apply (Hraise ConnectionClosed); [now left|exact E].
  - exact (Hrej _ R2 E).
  - destruct auth as [ |b|n|x|items|fields];
      try (apply (Hraise AttributeError); [now right|exact E]).
    run_coro_in E.
    destruct (dict_get "type" fields) as [t|] eqn:Ht;
      [|cbn [json_is_str negb] in E; run_coro_in E; exact (Hrej _ R3 E)].
    destruct (json_is_str t "auth") eqn:Et; cbn [negb] in E; run_coro_in E;
      [|exact (Hrej _ R3 E)].
    destruct (dict_get "username" fields) as [ju|] eqn:Hu;
      [|cbn [truthy negb] in E; run_coro_in E; exact (Hrej _ R3 E)].
    destruct (truthy ju) eqn:Tu; cbn [negb] in E; run_coro_in E;
      [|exact (Hrej _ R3 E)].
    destruct (dict_get "password" fields) as [jp|] eqn:Hp;
      [|cbn [truthy negb] in E; run_coro_in E; exact (Hrej _ R3 E)].
    destruct (truthy jp) eqn:Tp; cbn [negb] in E; run_coro_in E;
      [|exact (Hrej _ R3 E)].
    rewrite (bind_py_item_some _ _ _ _ _ Hu) in E.
    destruct ju as [ |b|n|u|items|fs];
      try (apply (Hraise AttributeError); [now right|exact E]).
    run_coro_in E. rewrite (bind_py_item_some _ _ _ _ _ Hp) in E.
    destruct (json_is_str jp CHAT_PASSWORD) eqn:Ep; cbn [negb] in E;
      [|exact (Hrej _ R4 E)].
    run_coro_in E.
    destruct (dict_mem (Str.strip u) (clients s)) eqn:Hm;
      [exact (Hrej _ R5 E)|].
    left. exists (Str.strip u).
    apply json_is_str_true in Et, Ep; subst t jp.
    assert (Hpres : presents fields u CHAT_PASSWORD).
    { repeat split; auto; [now apply truthy_str|discriminate]. }
    now rewrite E0, (authenticate_presented ws fields u s Hpres), Hm.
Qed.

(** X11.  A connection that is turned away is told so exactly once:
    whenever the authentication phase returns without joining, the calls
    made are one send of an [AuthFail] packet, carrying one of the five
    reasons, to that connection, and its close; the registry is as it
    was. *)
Theorem rejection_is_one_auth_fail (ws : websocket) (first : first_recv)
    (s s' : world) :
  authenticate ws first s = (Ok None, s') ->
  exists reason,
    In reason auth_fail_reasons /\
    s' = mkWorld (clients s) (ws :: closed s)
           (log s ++ [EvSend ws (AuthFail reason) (is_open s ws); EvClose ws]).
Proof.
  intros H.
  destruct (authenticate_outcomes ws first s)
    as [(username & E)|[(reason & Hr & E)|(e & E & _)]];
    rewrite E in H; try discriminate.
  rewrite reject_run in H. injection H as <-. now exists reason.
Qed.

Lemma rejection_is_one_auth_fail_witness :
  let s := mkWorld [("alice", 1)] [] [] in
  let s' := mkWorld [("alice", 1)] [2]
              [EvSend 2 (AuthFail "Malformed auth") true; EvClose 2] in
  authenticate 2 (Received NotJson) s = (Ok None, s') /\
  exists reason,
    In reason auth_fail_reasons /\
    s' = mkWorld (clients s) (2 :: closed s)
           (log s ++ [EvSend 2 (AuthFail reason) (is_open s 2); EvClose 2]).
Proof.
  intros s s'.
  assert (E : authenticate 2 (Received NotJson) s = (Ok None, s'))
    by reflexivity.
  split; [exact E|].
  exact (rejection_is_one_auth_fail 2 (Received NotJson) s s' E).
Defined.

(** X12.  The password is checked before the name: an auth message with
    a string username and any truthy password other than the room
    password is answered [Wrong password], whether the username is free
    or taken, and nothing is registered. *)
Theorem wrong_password_is_rejected_first (ws : websocket)
    (fields : list (string * json)) (u : string) (password : json)
    (s : world) :
  dict_get "type" fields = Some (JStr "auth") ->
  dict_get "username" fields = Some (JStr u) -> u <> "" ->
  dict_get "password" fields = Some password -> truthy password = true ->
  password <> JStr CHAT_PASSWORD ->
  authenticate ws (Received (Json (JObj fields))) s
  = (Ok None,
     mkWorld (clients s) (ws :: closed s)
       (log s ++ [EvSend ws (AuthFail "Wrong password") (is_open s ws);
                  EvClose ws])).
Proof.
  intros Ht Hu Hne Hp Tp Hw.
  unfold authenticate. run_coro. rewrite Ht.
  change (negb (json_is_str (JStr "auth") "auth")) with false. cbv iota.
  run_coro. rewrite Hu.
  apply truthy_str in Hne; rewrite Hne. cbn [negb].
  run_coro. rewrite Hp, Tp. cbn [negb]. run_coro.
  rewrite (bind_py_item_some _ _ _ _ _ Hu). run_coro.
  rewrite (bind_py_item_some _ _ _ _ _ Hp).
  destruct (json_is_str password CHAT_PASSWORD) eqn:Ep.
  - apply json_is_str_true in Ep. congruence.
  - cbn [negb]. apply reject_run.
Qed.

Lemma wrong_password_is_rejected_first_witness :
  let s := mkWorld [("alice", 1)] [] [] in
  authenticate 2 (Received (auth_frame "alice" "Letmein")) s
  = (Ok None,
     mkWorld (clients s) (2 :: closed s)
       (log s ++ [EvSend 2 (AuthFail "Wrong password") (is_open s 2);
                  EvClose 2])).
Proof.
  intros s.
  apply (wrong_password_is_rejected_first 2
           [("type", JStr "auth"); ("username", JStr "alice");
            ("password", JStr "Letmein")] "alice" (JStr "Letmein") s
           eq_refl eq_refl); [discriminate|reflexivity|reflexivity|discriminate].
Defined.

(** X13.  A decoded object whose [type] is not ["auth"], or whose
    [username] or [password] is missing or falsy ([null], [false], [0],
    the empty string, list or object), is answered [Auth required];
    nothing is registered. *)
Theorem incomplete_auth_is_rejected (ws : websocket)
    (fields : list (string * json)) (s : world) :
  let field key :=
    match dict_get key fields with Some v => v | None => JNull end in
  json_is_str (field "type") "auth" = false \/
  truthy (field "username") = false \/
  truthy (field "password") = false ->
  authenticate ws (Received (Json (JObj fields))) s
  = (Ok None,
     mkWorld (clients s) (ws :: closed s)
       (log s ++ [EvSend ws (AuthFail "Auth required") (is_open s ws);
                  EvClose ws])).
Proof.
  intros field H. unfold field in H.
  unfold authenticate. run_coro.
  destruct (json_is_str _ "auth") eqn:Et; cbn [negb]; run_coro;
    [|apply reject_run].
  destruct (truthy (match dict_get "username" fields with
                    | Some v => v
                    | None => JNull
                    end)) eqn:Tu; cbn [negb]; run_coro; [|apply reject_run].
  destruct (truthy (match dict_get "password" fields with
                    | Some v => v
                    | None => JNull
                    end)) eqn:Tp; cbn [negb]; run_coro; [|apply reject_run].
  destruct H as [H|[H|H]]; discriminate.
Qed.

Lemma incomplete_auth_is_rejected_witness :
  let s := mkWorld [] [] [] in
  let fields := [("type", JStr "auth"); ("username", JStr "");
                 ("password", JStr CHAT_PASSWORD)] in
  truthy (match dict_get "username" fields with
          | Some v => v
          | None => JNull
          end) = false /\
  authenticate 1 (Received (Json (JObj fields))) s
  = (Ok None,
     mkWorld (clients s) (1 :: closed s)
       (log s ++ [EvSend 1 (AuthFail "Auth required") (is_open s 1);
                  EvClose 1])).
Proof.
  intros s fields. split; [reflexivity|].
  apply (incomplete_auth_is_rejected 1 fields s). right; left; reflexivity.
Defined.

(** X14.  Two auth messages get no answer at all.  A frame that decodes
    to something other than an object, and an object with type ["auth"]
    and a truthy password whose username is truthy but not a string, make
    the handler raise [AttributeError]: nothing is sent, the connection is
    not closed by the handler, nothing is registered.  For the second the
    password is not even looked at. *)
Theorem ill_typed_auth_gets_no_reply (ws : websocket) (auth : json)
    (s : world) :
  (match auth with
   | JObj fields =>
       dict_get "type" fields = Some (JStr "auth") /\
       (exists name, dict_get "username" fields = Some name /\
                     truthy name = true /\
                     forall u, name <> JStr u) /\
       (exists password, dict_get "password" fields = Some password /\
                         truthy password = true)
   | _ => True
   end) ->
  authenticate ws (Received (Json auth)) s = (Raise AttributeError, s).
Proof.
  destruct auth as [ |b|n|x|items|fields]; try reflexivity.
  intros (Ht & (name & Hu & Tu & Hns) & (password & Hp & Tp)).
  unfold authenticate. run_coro. rewrite Ht.
  change (negb (json_is_str (JStr "auth") "auth")) with false. cbv iota.
  run_coro. rewrite Hu, Tu. cbn [negb]. run_coro. rewrite Hp, Tp.
  cbn [negb]. run_coro. rewrite (bind_py_item_some _ _ _ _ _ Hu).
  destruct name as [ |b|n|u|items|fs]; try reflexivity.
  exfalso. now apply (Hns u).
Qed.

Lemma ill_typed_auth_gets_no_reply_witness :
  let s := mkWorld [("alice", 1)] [] [] in
  authenticate 2
    (Received (Json (JObj [("type", JStr "auth"); ("username", JNum 7);
                           ("password", JStr "guess")]))) s
  = (Raise AttributeError, s).
Proof.
  intros s.
  apply (ill_typed_auth_gets_no_reply 2
           (JObj [("type", JStr "auth"); ("username", JNum 7);
                  ("password", JStr "guess")]) s).
  split; [reflexivity|]. split.
  - exists (JNum 7). split; [reflexivity|]. split; [reflexivity|].
    intros u; discriminate.
  - exists (JStr "guess"). split; reflexivity.
Defined.

(** X15.  The [finally] block only removes the session's own entry: when
    the username is not registered, or is registered on another
    websocket, the registry stays as it is; the leave notice and the
    [Users] snapshot are sent to every entry all the same. *)
Theorem teardown_spares_a_foreign_entry (username : string) (ws : websocket)
    (s : world) :
  dict_get username (clients s) <> Some ws ->
  teardown username ws s
  = (Ok tt,
     mkWorld (clients s) (closed s)
       (log s
        ++ fanout (System ("*** " ++ username ++ " left the chat ***")) None
             (closed s) (clients s)
        ++ fanout (Users (dict_keys (clients s))) None (closed s) (clients s))).
Proof.
  intros H. rewrite teardown_run. unfold without.
  assert (E : still_mine username ws (clients s) = false).
  { unfold still_mine, dict_mem.
    destruct (dict_get username (clients s)) as [w|]; [|reflexivity].
    cbn [andb]. apply Nat.eqb_neq. congruence. }
  now rewrite E.
Qed.

Lemma teardown_spares_a_foreign_entry_witness :
  let s := mkWorld [("alice", 1); ("bob", 2)] [] [] in
  dict_get "bob" (clients s) <> Some 7 /\
  teardown "bob" 7 s
  = (Ok tt,
     mkWorld [("alice", 1); ("bob", 2)] []
       [EvSend 1 (System "*** bob left the chat ***") true;
        EvSend 2 (System "*** bob left the chat ***") true;
        EvSend 1 (Users ["alice"; "bob"]) true;
        EvSend 2 (Users ["alice"; "bob"]) true]).
Proof.
  intros s.
  assert (H : dict_get "bob" (clients s) <> Some 7) by discriminate.
  split; [exact H|].
  exact (teardown_spares_a_foreign_entry "bob" 7 s H).
Defined.

(* ===================================================================== *)
(** ** The timestamp *)
(* ===================================================================== *)

Lemma digit_inj (a b : nat) : a < 10 -> b < 10 -> digit a = digit b -> a = b.
Proof.
  intros Ha Hb H. unfold digit in H.
  apply (f_equal nat_of_ascii) in H.
  rewrite !nat_ascii_embedding in H by lia. lia.
Qed.

Lemma digits2_inj (a b c d : nat) :
  String (digit a) (String (digit b) EmptyString)
  = String (digit c) (String (digit d) EmptyString) ->
  digit a = digit c /\ digit b = digit d.
Proof. intros H; injection H as H1 H2; now split. Qed.

Lemma pad2_inj (n m : nat) : n < 100 -> m < 100 -> pad2 n = pad2 m -> n = m.
Proof.
  intros Hn Hm H. unfold pad2 in H. apply digits2_inj in H as [H1 H2].
  apply digit_inj in H1;
    [|apply Nat.Div0.div_lt_upper_bound; lia
     |apply Nat.Div0.div_lt_upper_bound; lia].
  apply digit_inj in H2;
    [|apply Nat.mod_upper_bound; lia|apply Nat.mod_upper_bound; lia].
  pose proof (Nat.div_mod_eq n 10). pose proof (Nat.div_mod_eq m 10). lia.
Qed.

Lemma decompose4 (n : nat) :
  n = 1000 * (n / 1000) + 100 * (n / 100 mod 10) + 10 * (n / 10 mod 10)
      + n mod 10.
Proof.
  pose proof (Nat.div_mod_eq n 10) as E1.
  pose proof (Nat.div_mod_eq (n / 10) 10) as E2.
  pose proof (Nat.div_mod_eq (n / 100) 10) as E4.
  pose proof (Nat.Div0.div_div n 10 10) as E3.
  pose proof (Nat.Div0.div_div n 100 10) as E5.
  change (10 * 10) with 100 in E3. change (100 * 10) with 1000 in E5.
  rewrite E3 in E2. rewrite E5 in E4. lia.
Qed.

Lemma digits4_inj (a b c d a' b' c' d' : nat) :
  String (digit a) (String (digit b) (String (digit c)
    (String (digit d) EmptyString)))
  = String (digit a') (String (digit b') (String (digit c')
      (String (digit d') EmptyString))) ->
  digit a = digit a' /\ digit b = digit b' /\
  digit c = digit c' /\ digit d = digit d'.
Proof. intros H; injection H as H1 H2 H3 H4; now repeat split. Qed.

Lemma pad4_inj (n m : nat) :
  n < 10 * 1000 -> m < 10 * 1000 -> pad4 n = pad4 m -> n = m.
Proof.
  intros Hn Hm H. unfold pad4 in H.
  apply digits4_inj in H as (H1 & H2 & H3 & H4).
  apply digit_inj in H1;
    [|apply Nat.Div0.div_lt_upper_bound; lia
     |apply Nat.Div0.div_lt_upper_bound; lia].
  apply digit_inj in H2;
    [|apply Nat.mod_upper_bound; lia|apply Nat.mod_upper_bound; lia].
  apply digit_inj in H3;
    [|apply Nat.mod_upper_bound; lia|apply Nat.mod_upper_bound; lia].
  apply digit_inj in H4;
    [|apply Nat.mod_upper_bound; lia|apply Nat.mod_upper_bound; lia].
  rewrite (decompose4 n), (decompose4 m). now rewrite H1, H2, H3, H4.
Qed.

(** Prefixes of equal length can be cancelled. *)
Lemma str_app_inj (a a' b b' : string) :
  String.length a = String.length a' ->
  (a ++ b)%string = (a' ++ b')%string -> a = a' /\ b = b'.
Proof.
  revert a'; induction a as [|c a IH]; intros [|c' a']; simpl;
    try discriminate.
  - auto.
  - intros Hl H. injection Hl as Hl. injection H as -> H.
    destruct (IH a' Hl H) as [-> ->]. auto.
Qed.

(** The 12-hour reading and the half of the day give the hour back. *)
Lemma hour_of_hour12 (h : nat) :
  h < 24 ->
  h = (if String.eqb (ampm h) "AM" then 0 else 12) + hour12 h mod 12.
Proof.
  intros H.
  do 24 (destruct h as [|h]; [reflexivity|]). lia.
Qed.

Lemma hour12_range (h : nat) : 1 <= hour12 h <= 12.
Proof.
  unfold hour12. pose proof (Nat.mod_upper_bound h 12).
  destruct (h mod 12); lia.
Qed.

(** X16.  The timestamp [now_ts] prints is always 22 characters long, and
    it determines the clock reading: two readings with a four-digit year
    that differ in the year, month, day, hour, minute or second never
    print the same timestamp, although midnight and noon both print the
    hour as 12. *)
Theorem timestamp_determines_the_reading (t1 t2 : datetime) :
  valid_datetime t1 -> valid_datetime t2 ->
  String.length (now_ts t1) = 22 /\
  (now_ts t1 = now_ts t2 -> t1 = t2).
Proof.
  intros (Hy1 & Hm1 & Hd1 & Hh1 & Hmi1 & Hs1)
         (Hy2 & Hm2 & Hd2 & Hh2 & Hmi2 & Hs2).
  split.
  - unfold now_ts, pad4, pad2, ampm. destruct (Nat.ltb (hour t1) 12);
      reflexivity.
  - destruct t1 as [y1 m1 d1 h1 mi1 s1], t2 as [y2 m2 d2 h2 mi2 s2].
    cbn [year month day hour minute second] in *.
    unfold now_ts. cbn [year month day hour minute second].
    intros H.
    assert (Ey : pad4 y1 = pad4 y2 /\ pad2 m1 = pad2 m2 /\
                 pad2 d1 = pad2 d2 /\ pad2 (hour12 h1) = pad2 (hour12 h2) /\
                 pad2 mi1 = pad2 mi2 /\ pad2 s1 = pad2 s2 /\
                 ampm h1 = ampm h2).
    { apply str_app_inj in H as [Ey H]; [|reflexivity].
      apply (str_app_inj "-" "-") in H as [_ H]; [|reflexivity].
      apply str_app_inj in H as [Em H]; [|reflexivity].
      apply (str_app_inj "-" "-") in H as [_ H]; [|reflexivity].
      apply str_app_inj in H as [Ed H]; [|reflexivity].
      apply (str_app_inj " " " ") in H as [_ H]; [|reflexivity].
      apply str_app_inj in H as [Eh H]; [|reflexivity].
      apply (str_app_inj ":" ":") in H as [_ H]; [|reflexivity].
      apply str_app_inj in H as [Emi H]; [|reflexivity].
      apply (str_app_inj ":" ":") in H as [_ H]; [|reflexivity].
      apply str_app_inj in H as [Es H]; [|reflexivity].
      apply (str_app_inj " " " ") in H as [_ H]; [|reflexivity].
      repeat split; assumption. }
    destruct Ey as (Ey & Em & Ed & Eh & Emi & Es & Ep).
    apply pad4_inj in Ey; [|lia|lia].
    apply pad2_inj in Em; [|lia|lia].
    apply pad2_inj in Ed; [|lia|lia].
    apply pad2_inj in Emi; [|lia|lia].
    apply pad2_inj in Es; [|lia|lia].
    pose proof (hour12_range h1). pose proof (hour12_range h2).
    apply pad2_inj in Eh; [|lia|lia].
    assert (h1 = h2).
    { rewrite (hour_of_hour12 h1 Hh1), (hour_of_hour12 h2 Hh2).
      now rewrite Eh, Ep. }
    now subst.
Qed.

Lemma timestamp_determines_the_reading_witness :
  let noon := mkDatetime 2025 10 7 12 0 0 in
  let later := mkDatetime 2025 10 7 15 45 12 in
  valid_datetime noon /\ valid_datetime later /\
  now_ts noon = "2025-10-07 12:00:00 PM" /\
  now_ts later = "2025-10-07 03:45:12 PM" /\
  String.length (now_ts noon) = 22.
Proof.
  intros noon later.
  assert (V1 : valid_datetime noon) by (unfold valid_datetime; simpl; lia).
  assert (V2 : valid_datetime later) by (unfold valid_datetime; simpl; lia).
  split; [exact V1|]. split; [exact V2|].
  split; [reflexivity|]. split; [reflexivity|].
  exact (proj1 (timestamp_determines_the_reading noon later V1 V2)).
Defined.

(* ===================================================================== *)
(** ** The terminal client *)
(* ===================================================================== *)

Lemma send_loop_no_quit (lines : list string) :
  Forall (fun m => String.eqb (Client.lower m) "/quit" = false) lines ->
  Client.send_loop lines = filter (fun m => negb (String.eqb m "")) lines.
Proof.
  induction lines as [|m rest IH]; [reflexivity|].
  intros H; inversion H as [|? ? Hm Hrest]; subst.
  cbn [Client.send_loop filter].
  destruct (String.eqb m ""); cbn [negb]; [now apply IH|].
  rewrite Hm. f_equal. now apply IH.
Qed.

(** X17.  What the client sends after the username: the non-empty lines
    typed, in order, up to and including the first line that is [/quit]
    in any mix of upper and lower case; empty lines are skipped and
    nothing typed after the quit line is sent.  Without a quit line,
    every non-empty line is sent. *)
Theorem client_sends_until_quit (pre post : list string) (q : string) :
  Forall (fun m => String.eqb (Client.lower m) "/quit" = false) pre ->
  String.eqb (Client.lower q) "/quit" = true ->
  Client.send_loop (pre ++ q :: post)
  = filter (fun m => negb (String.eqb m "")) pre ++ [q] /\
  Client.send_loop pre = filter (fun m => negb (String.eqb m "")) pre /\
  forall name,
    Client.main (name :: pre ++ q :: post)
    = Some (name :: filter (fun m => negb (String.eqb m "")) pre ++ [q]).
Proof.
  intros Hpre Hq.
  assert (E : Client.send_loop (pre ++ q :: post)
              = filter (fun m => negb (String.eqb m "")) pre ++ [q]).
  { induction pre as [|m rest IH]; cbn [app Client.send_loop filter].
    - destruct (String.eqb_spec q "") as [->|_]; [discriminate|].
      now rewrite Hq.
    - inversion Hpre as [|? ? Hm Hrest]; subst.
      destruct (String.eqb m ""); cbn [negb]; [now apply IH|].
      rewrite Hm. cbn [app]. f_equal. now apply IH. }
  split; [exact E|]. split; [now apply send_loop_no_quit|].
  intros name. cbn [Client.main]. now rewrite E.
Qed.

Lemma client_sends_until_quit_witness :
  Forall (fun m => String.eqb (Client.lower m) "/quit" = false)
         ["hello"; ""; "/quit now"] /\
  String.eqb (Client.lower "/QuIt") "/quit" = true /\
  Client.send_loop (["hello"; ""; "/quit now"] ++ "/QuIt" :: ["more"; "/users"])
  = ["hello"; "/quit now"; "/QuIt"].
Proof.
  assert (Hpre : Forall (fun m => String.eqb (Client.lower m) "/quit" = false)
                        ["hello"; ""; "/quit now"])
    by (repeat constructor).
  split; [exact Hpre|]. split; [reflexivity|].
  exact (proj1 (client_sends_until_quit ["hello"; ""; "/quit now"]
                  ["more"; "/users"] "/QuIt" Hpre eq_refl)).
Defined.

(** X18.  What the client's listener prints: each chunk received, after
    a newline, until the first empty chunk, where it prints
    [Disconnected from server.] and stops, or until a receive fails,
    where it stops without a word; chunks after that are not printed. *)
Theorem listener_stops_at_disconnect (ds : list string)
    (rest : list Client.chunk) :
  Forall (fun d => d <> "") ds ->
  Client.listen (map Client.Data ds ++ Client.Data "" :: rest)
  = map (fun d => (Client.newline ++ d)%string) ds
    ++ ["Disconnected from server."] /\
  Client.listen (map Client.Data ds ++ Client.Failure :: rest)
  = map (fun d => (Client.newline ++ d)%string) ds.
Proof.
  intros H; induction ds as [|d ds IH]; cbn [map app Client.listen].
  - split; reflexivity.
  - inversion H as [|? ? Hd Hds]; subst.
    destruct (String.eqb_spec d "") as [->|_]; [congruence|].
    destruct (IH Hds) as [-> ->]. split; reflexivity.
Qed.

Lemma listener_stops_at_disconnect_witness :
  Forall (fun d => d <> "") ["hi"; "there"] /\
  Client.listen (map Client.Data ["hi"; "there"]
                 ++ Client.Data "" :: [Client.Data "late"])
  = [(Client.newline ++ "hi")%string; (Client.newline ++ "there")%string;
     "Disconnected from server."].
Proof.
  assert (H : Forall (fun d => d <> "") ["hi"; "there"])
    by (repeat constructor; discriminate).
  split; [exact H|].
  exact (proj1 (listener_stops_at_disconnect ["hi"; "there"]
                  [Client.Data "late"] H)).
Defined.
